(** * onionshare_gui/tab_widget.py: the tab container of the OnionShare GUI

    A shallow embedding of [TabWidget] (a [QTabWidget] subclass with a "+"
    button) and proofs about its registry of tabs, its visual strip, the
    order of persistent tabs it saves, and the position of the "+" button.

    Python objects live in a store and are named by references, so that
    the registry ([self.tabs]) and the pages of the tab strip share the
    Tab objects as they do in the program.  Methods are computations in a
    state-and-exception monad: an exception stops the method and leaves
    the state as it was when it was raised.  Calls into collaborators whose
    code is elsewhere (the settings store, a tab's mode settings, the Tab
    constructor) are recorded, in order, in a log of effects. *)

From stdpp Require Import strings functions gmap fin_maps list sorting.

(** ** Collaborators *)

(** Modelled from the spec: [ModeSettings] (onionshare/mode_settings.py) is
    not part of this file.  Of a tab's settings the widget reads the unique
    settings identifier ([settings.id]) and the persistence flag
    ([settings.get("persistent", "enabled")]). *)
Record ModeSettings := mkModeSettings {
  ms_id : string;
  persistent_enabled : bool;
}.

(** Modelled from the spec: the server status of a mode.  The widget
    compares [status] with the constant [STATUS_STOPPED], both read from the
    same object. *)
Record ServerStatus := mkServerStatus {
  status : Z;
  STATUS_STOPPED : Z;
}.

Record Mode := mkMode {
  server_status : ServerStatus;
}.

(** Modelled from the spec: class [Tab] (onionshare_gui/tab.py) is not part
    of this file.  A tab exposes its integer id, its mode settings, the
    answer of its close-confirmation operation ([tab.close_tab()], false to
    veto closing) and the mode that [get_mode()] returns ([None] when the
    tab has no mode yet). *)
Record Tab := mkTab {
  tab_id : Z;
  settings : ModeSettings;
  can_close : bool;
  get_mode : option Mode;
}.

(** What the code of [Tab] decides for a tab that is constructed with a given
    id: the default mode settings of a blank tab (with their fresh settings
    identifier), its answer to a close request and its mode. *)
Record TabInit := mkTabInit {
  init_settings : ModeSettings;
  init_can_close : bool;
  init_mode : option Mode;
}.

(** ** Objects and the widget's state *)

(** A reference to a Tab object. *)
Abbreviation ref := nat.

(** The widget that [setTabButton] puts on the left side of a tab header. *)
Inductive TabButton :=
  | persistent_image_label (owner : ref)
  | invisible_widget.

(** One page of the [QTabWidget]: the page widget (a Tab) and what its header
    shows. *)
Record Page := mkPage {
  page_widget : ref;
  tabText : string;
  tabIcon : option string;
  tabButton : option TabButton;
}.

(** Calls into collaborators, in the order they are made. *)
Inductive Effect :=
  | TabConstructed (tab_id : Z)
  | SettingsSet (key : string) (value : list string)
  | SettingsSave
  | ModeSettingsDelete (settings_id : string).

(** The state: the fields of the widget ([tabs], [current_tab_id], the pages
    of the inherited [QTabWidget] in display order, the position of the "+"
    button), the Tab objects, and the log of effects. *)
Record State := mkState {
  tabs : gmap Z ref;
  current_tab_id : Z;
  pages : list Page;
  new_tab_button_pos : Z * Z;
  heap : ref → Tab;
  next_ref : ref;
  effects : list Effect;
}.

Definition set_tabs (f : gmap Z ref → gmap Z ref) (s : State) : State :=
  mkState (f (tabs s)) (current_tab_id s) (pages s) (new_tab_button_pos s)
          (heap s) (next_ref s) (effects s).

Definition set_current_tab_id (f : Z → Z) (s : State) : State :=
  mkState (tabs s) (f (current_tab_id s)) (pages s) (new_tab_button_pos s)
          (heap s) (next_ref s) (effects s).

Definition set_pages (f : list Page → list Page) (s : State) : State :=
  mkState (tabs s) (current_tab_id s) (f (pages s)) (new_tab_button_pos s)
          (heap s) (next_ref s) (effects s).

Definition set_new_tab_button_pos (f : Z * Z → Z * Z) (s : State) : State :=
  mkState (tabs s) (current_tab_id s) (pages s) (f (new_tab_button_pos s))
          (heap s) (next_ref s) (effects s).

Definition set_heap (f : (ref → Tab) → ref → Tab) (s : State) : State :=
  mkState (tabs s) (current_tab_id s) (pages s) (new_tab_button_pos s)
          (f (heap s)) (next_ref s) (effects s).

Definition set_next_ref (f : ref → ref) (s : State) : State :=
  mkState (tabs s) (current_tab_id s) (pages s) (new_tab_button_pos s)
          (heap s) (f (next_ref s)) (effects s).

Definition set_effects (f : list Effect → list Effect) (s : State) : State :=
  mkState (tabs s) (current_tab_id s) (pages s) (new_tab_button_pos s)
          (heap s) (next_ref s) (f (effects s)).

(** ** The monad of methods *)

Inductive exn :=
  | KeyError (key : Z)
  | AttributeError (attr : string).

Inductive Outcome (A : Type) :=
  | Ok (a : A)
  | Raise (e : exn).
Arguments Ok {A} a.
Arguments Raise {A} e.

Definition M (A : Type) : Type := State → Outcome A * State.

Definition ret {A} (a : A) : M A := λ s, (Ok a, s).

Definition bind {A B} (m : M A) (k : A → M B) : M B :=
  λ s, match m s with
       | (Ok a, s') => k a s'
       | (Raise e, s') => (Raise e, s')
       end.

Definition raise {A} (e : exn) : M A := λ s, (Raise e, s).
Definition get : M State := λ s, (Ok s, s).
Definition gets {A} (f : State → A) : M A := λ s, (Ok (f s), s).
Definition modify (f : State → State) : M unit := λ s, (Ok tt, f s).
Definition emit (e : Effect) : M unit := modify (set_effects (λ l, l ++ [e])).

Declare Scope py_scope.
Delimit Scope py_scope with py.
Notation "x <- m ;; k" := (bind m (λ x, k))
  (at level 100, m at next level, right associativity) : py_scope.
Notation "m ;;; k" := (bind m (λ _, k))
  (at level 100, right associativity) : py_scope.
Open Scope py_scope.

(** Readings of the toolkit's geometry at the time [move_new_tab_button]
    runs: the width of the header of the tab at each index
    ([tabBar().tabRect(i).width()]), the width of the widget
    ([self.width()]) and the preferred width of the tab bar
    ([tabBar().sizeHint().width()]). *)
Record Geometry := mkGeometry {
  tabRect_width : Z → Z;
  width : Z;
  sizeHint_width : Z;
}.

Section TabWidget.

(** The translation table [strings._], the resource locator
    [common.get_resource_path], the code of [Tab] and what
    [ModeSettings(common, id=...)] loads for a settings identifier are
    parameters. *)
Variable strings_ : string → string.
Variable get_resource_path : string → string.
Variable tab_py : Z → TabInit.
Variable load_mode_settings : string → ModeSettings.

(** ** Inherited [QTabWidget] and [QTabBar] methods

    An index that is out of range makes [widget] return [None] and
    [indexOf] return [-1]; the setters and [removeTab] ignore it. *)

Definition page_at (index : Z) (l : list Page) : option Page :=
  if (index <? 0)%Z then None else l !! Z.to_nat index.

Definition alter_page (f : Page → Page) (index : Z) (l : list Page) : list Page :=
  if (index <? 0)%Z then l else alter f (Z.to_nat index) l.

Definition delete_page (index : Z) (l : list Page) : list Page :=
  if (index <? 0)%Z then l else delete (Z.to_nat index) l.

Fixpoint index_of (r : ref) (l : list Page) : option nat :=
  match l with
  | [] => None
  | p :: l' => if decide (page_widget p = r) then Some 0 else S <$> index_of r l'
  end.

Definition index_Z (r : ref) (l : list Page) : Z :=
  match index_of r l with
  | Some i => Z.of_nat i
  | None => (-1)%Z
  end.

Definition with_button (b : TabButton) (p : Page) : Page :=
  mkPage (page_widget p) (tabText p) (tabIcon p) (Some b).

Definition count : M Z := gets (λ s, Z.of_nat (length (pages s))).

Definition widget (index : Z) : M (option ref) :=
  gets (λ s, page_widget <$> page_at index (pages s)).

Definition indexOf (r : ref) : M Z := gets (λ s, index_Z r (pages s)).

Definition addTab (r : ref) (label : string) : M Z :=
  n <- count ;;
  modify (set_pages (λ l, l ++ [mkPage r label None None])) ;;;
  ret n.

Definition removeTab (index : Z) : M unit :=
  modify (set_pages (delete_page index)).

Definition setTabText (index : Z) (text : string) : M unit :=
  modify (set_pages (alter_page
    (λ p, mkPage (page_widget p) text (tabIcon p) (tabButton p)) index)).

Definition setTabIcon (index : Z) (icon : string) : M unit :=
  modify (set_pages (alter_page
    (λ p, mkPage (page_widget p) (tabText p) (Some icon) (tabButton p)) index)).

Definition setTabButton (index : Z) (b : TabButton) : M unit :=
  modify (set_pages (alter_page (with_button b) index)).

(** ** The dictionary [self.tabs] *)

Definition tabs_getitem (key : Z) : M ref :=
  s <- get ;;
  match tabs s !! key with
  | Some r => ret r
  | None => raise (KeyError key)
  end.

Definition tabs_setitem (key : Z) (r : ref) : M unit :=
  modify (set_tabs <[key := r]>).

Definition tabs_delitem (key : Z) : M unit :=
  s <- get ;;
  match tabs s !! key with
  | Some _ => modify (set_tabs (delete key))
  | None => raise (KeyError key)
  end.

(** ** Tab objects *)

(** Reading an attribute of what may be [None]. *)
Definition attr (name : string) (o : option ref) : M ref :=
  match o with
  | Some r => ret r
  | None => raise (AttributeError name)
  end.

(** [Tab(common, tab_id, system_tray, status_bar)]: a new object. *)
Definition Tab__init__ (id : Z) : Tab :=
  mkTab id (init_settings (tab_py id)) (init_can_close (tab_py id))
        (init_mode (tab_py id)).

Definition new_Tab (id : Z) : M ref :=
  emit (TabConstructed id) ;;;
  r <- gets next_ref ;;
  modify (set_heap <[r := Tab__init__ id]>) ;;;
  modify (set_next_ref S) ;;;
  ret r.

(** [tab.init(mode_settings)]: the tab takes the mode settings it is given;
    without any it keeps the default ones of a blank tab. *)
Definition Tab_init (r : ref) (mode_settings : option ModeSettings) : M unit :=
  match mode_settings with
  | Some ms =>
      modify (set_heap (λ h,
        <[r := mkTab (tab_id (h r)) ms (can_close (h r)) (get_mode (h r))]> h))
  | None => ret tt
  end.

Definition Tab_tab_id (r : ref) : M Z := gets (λ s, tab_id (heap s r)).

Definition Tab_close_tab (r : ref) : M bool := gets (λ s, can_close (heap s r)).

Definition Tab_get_mode (r : ref) : M (option Mode) :=
  gets (λ s, get_mode (heap s r)).

(** [tab.settings.get("persistent", "enabled")] *)
Definition settings_get_persistent_enabled (r : ref) : M bool :=
  gets (λ s, persistent_enabled (settings (heap s r))).

Definition settings_id (r : ref) : M string :=
  gets (λ s, ms_id (settings (heap s r))).

(** [tab.settings.delete()] removes the settings file of the tab. *)
Definition settings_delete (r : ref) : M unit :=
  i <- settings_id r ;;
  emit (ModeSettingsDelete i).

(** ** The methods of [TabWidget]

    The calls of [common.log] only write to the debug log and are left
    out.  A Python condition on a flag, on [mode] or on what
    [tab.close_tab()] returns is a test of a [bool] or of an [option]. *)

Definition range (n : Z) : list Z := seqZ 0 n.

Definition sum (l : list Z) : Z := foldl Z.add 0%Z l.

(** The "+" button keeps its y coordinate ([raise_] only changes the
    stacking order, which is not modelled). *)
Definition move_new_tab_button (g : Geometry) : M unit :=
  n <- count ;;
  let tabs_width := sum (tabRect_width g <$> range n) in
  pos <- gets new_tab_button_pos ;;
  let pos :=
    if (tabs_width >? width g)%Z
    then ((width g - 61)%Z, pos.2)
    else (sizeHint_width g, pos.2) in
  modify (set_new_tab_button_pos (λ _, pos)).

Fixpoint save_persistent_tabs_loop (indices : list Z)
    (persistent_tabs : list string) : M (list string) :=
  match indices with
  | [] => ret persistent_tabs
  | index :: indices =>
      tab <- widget index ;;
      tab <- attr "settings" tab ;;
      enabled <- settings_get_persistent_enabled tab ;;
      if enabled : bool
      then i <- settings_id tab ;;
           save_persistent_tabs_loop indices (persistent_tabs ++ [i])
      else save_persistent_tabs_loop indices persistent_tabs
  end.

Definition save_persistent_tabs : M unit :=
  n <- count ;;
  persistent_tabs <- save_persistent_tabs_loop (range n) [] ;;
  emit (SettingsSet "persistent_tabs" persistent_tabs) ;;;
  emit SettingsSave.

Definition change_title (tab_id : Z) (title : string) : M unit :=
  tab <- tabs_getitem tab_id ;;
  index <- indexOf tab ;;
  setTabText index title.

Definition change_icon (tab_id : Z) (icon_path : string) : M unit :=
  tab <- tabs_getitem tab_id ;;
  index <- indexOf tab ;;
  setTabIcon index (get_resource_path icon_path).

Definition change_persistent (tab_id : Z) (is_persistent : bool) : M unit :=
  tab <- tabs_getitem tab_id ;;
  index <- indexOf tab ;;
  (if is_persistent
   then tab <- tabs_getitem tab_id ;;
        setTabButton index (persistent_image_label tab)
   else setTabButton index invisible_widget) ;;;
  save_persistent_tabs.

(** The three [connect] calls only wire the tab's notifications to
    [change_title], [change_icon] and [change_persistent];
    [setCurrentIndex] selects the new page, and which page is selected is
    not part of the state. *)
Definition add_tab (mode_settings : option ModeSettings) : M unit :=
  id <- gets current_tab_id ;;
  tab <- new_Tab id ;;
  id <- gets current_tab_id ;;
  tabs_setitem id tab ;;;
  modify (set_current_tab_id (λ n, n + 1)%Z) ;;;
  index <- addTab tab (strings_ "gui_new_tab") ;;
  Tab_init tab mode_settings ;;;
  id <- Tab_tab_id tab ;;
  enabled <- settings_get_persistent_enabled tab ;;
  change_persistent id enabled.

Definition new_tab_clicked : M unit := add_tab None.

Definition load_tab (mode_settings_id : string) : M unit :=
  add_tab (Some (load_mode_settings mode_settings_id)).

Definition close_tab (index : Z) : M unit :=
  tab <- widget index ;;
  tab <- attr "close_tab" tab ;;
  closing <- Tab_close_tab tab ;;
  (if closing : bool
   then
     enabled <- settings_get_persistent_enabled tab ;;
     (if enabled : bool then settings_delete tab else ret tt) ;;;
     removeTab index ;;;
     id <- Tab_tab_id tab ;;
     tabs_delitem id ;;;
     n <- count ;;
     if (n =? 0)%Z then new_tab_clicked else ret tt
   else ret tt) ;;;
  save_persistent_tabs.

Fixpoint are_tabs_active_loop (tab_ids : list Z) : M bool :=
  match tab_ids with
  | [] => ret false
  | tab_id :: tab_ids =>
      tab <- tabs_getitem tab_id ;;
      mode <- Tab_get_mode tab ;;
      match mode with
      | Some mode =>
          if decide (status (server_status mode)
                     ≠ STATUS_STOPPED (server_status mode))
          then ret true
          else are_tabs_active_loop tab_ids
      | None => are_tabs_active_loop tab_ids
      end
  end.

(** The loop visits the keys of [self.tabs]; [get_mode] changes nothing, so
    the order of the visit does not show in the result. *)
Definition are_tabs_active : M bool :=
  s <- get ;;
  are_tabs_active_loop ((map_to_list (tabs s)).*1).

Definition changeEvent : M unit := save_persistent_tabs.

Definition resizeEvent (g : Geometry) : M unit := move_new_tab_button g.

(** [__init__]: an empty registry, the counter at 0, no page, a "+" button
    that [move_new_tab_button] then places. *)
Definition TabWidget__init__ (g : Geometry) (h : ref → Tab) : State :=
  (move_new_tab_button g (mkState ∅ 0%Z [] (0%Z, 0%Z) h 0 [])).2.

(** ** Events

    What can happen to a widget: the user asks for a new tab, a saved tab
    is loaded ([add_tab] with or without mode settings), the user asks to
    close the tab at an index, drags a tab header to another position or
    resizes the window; a tab announces a new title, icon or persistence
    flag; the toolkit delivers a change event; the code of a Tab changes the
    tab's own settings, close answer or mode (its id stays).

    The tab bar announces every change of its layout ([tabLayoutChange]) and
    the widget answers with [move_new_tab_button].  When the toolkit lays
    the bar out is its own business, and the answer touches nothing but the
    position of the "+" button, so these announcements are events of their
    own rather than steps of [add_tab] and [close_tab]. *)

(** [QTabBar.moveTab]: the page at [from] is taken out and put back at
    position [to]; nothing moves when an index is out of range. *)
Definition move_page (from to : nat) (l : list Page) : list Page :=
  match l !! from with
  | Some p =>
      if decide (to < length l)
      then take to (delete from l) ++ p :: drop to (delete from l)
      else l
  | None => l
  end.

Inductive Event :=
  | ev_add_tab (mode_settings : option ModeSettings)
  | ev_load_tab (mode_settings_id : string)
  | ev_close_tab (index : Z)
  | ev_change_title (tab_id : Z) (title : string)
  | ev_change_icon (tab_id : Z) (icon_path : string)
  | ev_change_persistent (tab_id : Z) (is_persistent : bool)
  | ev_changeEvent
  | ev_resizeEvent (g : Geometry)
  | ev_tabLayoutChange (g : Geometry)
  | ev_tab_moved (from to : nat)
  | ev_tab_changed (r : ref) (ms : ModeSettings) (closing : bool)
      (mode : option Mode).

(** The state an event leaves behind (also when the method raised). *)
Definition step (e : Event) (s : State) : State :=
  match e with
  | ev_add_tab mode_settings => (add_tab mode_settings s).2
  | ev_load_tab mode_settings_id => (load_tab mode_settings_id s).2
  | ev_close_tab index => (close_tab index s).2
  | ev_change_title tab_id title => (change_title tab_id title s).2
  | ev_change_icon tab_id icon_path => (change_icon tab_id icon_path s).2
  | ev_change_persistent tab_id b => (change_persistent tab_id b s).2
  | ev_changeEvent => (changeEvent s).2
  | ev_resizeEvent g => (resizeEvent g s).2
  | ev_tabLayoutChange g => (move_new_tab_button g s).2
  | ev_tab_moved from to => set_pages (move_page from to) s
  | ev_tab_changed r ms closing mode =>
      set_heap (λ h, <[r := mkTab (tab_id (h r)) ms closing mode]> h) s
  end.

Definition run (es : list Event) (s : State) : State :=
  foldl (λ s e, step e s) s es.

Inductive reachable : State → Prop :=
  | reachable_init g h : reachable (TabWidget__init__ g h)
  | reachable_step e s : reachable s → reachable (step e s).

(** ** What the claims speak of *)

(** The persisted order: the settings identifiers of the tabs whose
    persistence flag is enabled, in display order. *)
Definition persistent_tabs_of (h : ref → Tab) (l : list Page) : list string :=
  (λ p, ms_id (settings (h (page_widget p))))
    <$> filter (λ p, persistent_enabled (settings (h (page_widget p))) = true) l.

(** What one run of [save_persistent_tabs] adds to the log. *)
Definition saved (l : list string) : list Effect :=
  [SettingsSet "persistent_tabs" l; SettingsSave].

(** The list that the settings store holds under "persistent_tabs": the one
    of the last [set] in the log, if any. *)
Definition last_saved (l : list Effect) : option (list string) :=
  last (omap (λ e, match e with
                   | SettingsSet key value =>
                       if decide (key = "persistent_tabs") then Some value else None
                   | _ => None
                   end) l).

(** The ids handed to the Tab constructor, oldest first. *)
Definition assigned_ids (l : list Effect) : list Z :=
  omap (λ e, match e with TabConstructed i => Some i | _ => None end) l.

(** The registry holds exactly the tabs on the strip, each under its own id;
    ids are below the counter and references below the allocation mark. *)
Definition entries (s : State) : list (Z * ref) :=
  (λ p, (tab_id (heap s (page_widget p)), page_widget p)) <$> pages s.

Record wf (s : State) : Prop := mk_wf {
  wf_tabs : tabs s = list_to_map (entries s);
  wf_ids : NoDup (entries s).*1;
  wf_counter : Forall (λ i, i < current_tab_id s)%Z (entries s).*1;
  wf_refs : Forall (λ r, r < next_ref s) (entries s).*2;
}.

(** The sum of the widths of the tab headers. *)
Definition tabs_width (g : Geometry) (s : State) : Z :=
  foldr Z.add 0%Z ((λ i, tabRect_width g (Z.of_nat i)) <$> seq 0 (length (pages s))).

(** Some tab has a mode whose server is not stopped. *)
Definition some_tab_active (s : State) : Prop :=
  ∃ tab_id r mode,
    tabs s !! tab_id = Some r ∧ get_mode (heap s r) = Some mode ∧
    status (server_status mode) ≠ STATUS_STOPPED (server_status mode).

(** The tab object that [add_tab] leaves in the store. *)
Definition added_tab (s : State) (mode_settings : option ModeSettings) : Tab :=
  let t := Tab__init__ (current_tab_id s) in
  match mode_settings with
  | Some ms => mkTab (tab_id t) ms (can_close t) (get_mode t)
  | None => t
  end.

Definition added_button (s : State) (mode_settings : option ModeSettings) : TabButton :=
  if persistent_enabled (settings (added_tab s mode_settings))
  then persistent_image_label (next_ref s)
  else invisible_widget.

(** The state once the tab of page [p] at [index] has been taken out of the
    strip and the registry, its settings deleted if it was persistent. *)
Definition closed (s : State) (index : Z) (p : Page) : State :=
  let t := heap s (page_widget p) in
  mkState (delete (tab_id t) (tabs s)) (current_tab_id s)
    (delete_page index (pages s)) (new_tab_button_pos s) (heap s) (next_ref s)
    (effects s ++ if persistent_enabled (settings t)
                  then [ModeSettingsDelete (ms_id (settings t))] else []).

(** The ids handed out so far are 0, 1, ... up to the counter. *)
Definition ids_logged (s : State) : Prop :=
  assigned_ids (effects s) = seqZ 0 (current_tab_id s) ∧ (0 ≤ current_tab_id s)%Z.

(** The settings identifiers whose files were deleted, oldest first. *)
Definition deleted_settings (l : list Effect) : list string :=
  omap (λ e, match e with ModeSettingsDelete i => Some i | _ => None end) l.

(** The header of a page shows the page's own indicator: the invisible
    widget or the persistent image of the tab of that very page. *)
Definition own_button (p : Page) : Prop :=
  tabButton p = Some invisible_widget ∨
  tabButton p = Some (persistent_image_label (page_widget p)).

(** ** Concrete widgets *)

Definition example_labels (key : string) : string := key.
Definition example_resources (path : string) : string := path.
Definition example_saved (settings_id : string) : ModeSettings :=
  mkModeSettings settings_id true.

(** Blank tabs that let themselves be closed; those with an even id are
    persistent. *)
Definition quiet_tabs (id : Z) : TabInit :=
  mkTabInit (mkModeSettings (if Z.even id then "even" else "odd") (Z.even id))
            true None.

(** Tabs with a running server that refuse to close. *)
Definition busy_tabs (id : Z) : TabInit :=
  mkTabInit (mkModeSettings "busy" true) false
            (Some (mkMode (mkServerStatus 2 0))).

Definition example_geometry : Geometry := mkGeometry (λ _, 100%Z) 250%Z 300%Z.

Definition no_tab : Tab := mkTab 0 (mkModeSettings "" false) true None.

(** A widget just constructed. *)
Definition fresh_widget : State :=
  mkState ∅ 0%Z [] (300%Z, 0%Z) (λ _, no_tab) 0 [].

Definition quiet_page : Page :=
  mkPage 0 "gui_new_tab" None (Some (persistent_image_label 0)).

(** A widget with one quiet tab, of id 0, and one with one busy tab. *)
Definition one_quiet : State :=
  mkState {[ 0%Z := 0 ]} 1%Z [quiet_page] (300%Z, 0%Z)
    (<[0 := mkTab 0 (mkModeSettings "even" true) true None]> (λ _, no_tab)) 1
    [TabConstructed 0; SettingsSet "persistent_tabs" ["even"]; SettingsSave].

Definition one_busy : State :=
  mkState {[ 0%Z := 0 ]} 1%Z [quiet_page] (300%Z, 0%Z)
    (<[0 := mkTab 0 (mkModeSettings "busy" true) false
                  (Some (mkMode (mkServerStatus 2 0)))]> (λ _, no_tab)) 1
    [TabConstructed 0; SettingsSet "persistent_tabs" ["busy"]; SettingsSave].

(** The widget with the quiet tab of id 0 and a second quiet tab, of id 1. *)
Definition two_quiet : State :=
  mkState (<[1%Z := 1]> {[ 0%Z := 0 ]}) 2%Z
    [quiet_page; mkPage 1 "gui_new_tab" None (Some invisible_widget)]
    (300%Z, 0%Z)
    (<[1 := mkTab 1 (mkModeSettings "odd" false) true None]>
       (<[0 := mkTab 0 (mkModeSettings "even" true) true None]> (λ _, no_tab))) 2
    [TabConstructed 0; SettingsSet "persistent_tabs" ["even"]; SettingsSave;
     TabConstructed 1; SettingsSet "persistent_tabs" ["even"]; SettingsSave].

(** ** Running the monad *)

Lemma bind_Ok {A B} (m : M A) (k : A → M B) s a s' :
  m s = (Ok a, s') → bind m k s = k a s'.
Proof. intros H. unfold bind. by rewrite H. Qed.

Lemma bind_Raise {A B} (m : M A) (k : A → M B) s e s' :
  m s = (Raise e, s') → bind m k s = (Raise e, s').
Proof. intros H. unfold bind. by rewrite H. Qed.

Lemma bind_gets {A B} (f : State → A) (k : A → M B) s :
  bind (gets f) k s = k (f s) s.
Proof. done. Qed.

Lemma bind_modify {B} (f : State → State) (k : unit → M B) s :
  bind (modify f) k s = k tt (f s).
Proof. done. Qed.

(** ** Pages *)

Lemma page_at_app_r (l1 l2 : list Page) :
  page_at (Z.of_nat (length l1)) (l1 ++ l2) = l2 !! 0.
Proof.
  unfold page_at. destruct (Z.ltb_spec (Z.of_nat (length l1)) 0); [lia|].
  rewrite Nat2Z.id, lookup_app_r by lia. by rewrite Nat.sub_diag.
Qed.

Lemma page_at_Some index (l : list Page) p :
  page_at index l = Some p →
  (0 ≤ index)%Z ∧ l !! Z.to_nat index = Some p.
Proof.
  unfold page_at. destruct (Z.ltb_spec index 0); [done|]. auto.
Qed.

(** ** [save_persistent_tabs] *)

Lemma persistent_tabs_of_cons h p l :
  persistent_tabs_of h (p :: l) =
    (if persistent_enabled (settings (h (page_widget p)))
     then [ms_id (settings (h (page_widget p)))] else [])
    ++ persistent_tabs_of h l.
Proof.
  unfold persistent_tabs_of. rewrite filter_cons.
  destruct (persistent_enabled _) eqn:E; rewrite ?E; case_decide; try done.
Qed.

Lemma save_persistent_tabs_loop_spec s (l2 l1 : list Page) acc :
  pages s = l1 ++ l2 →
  save_persistent_tabs_loop
    (seqZ (Z.of_nat (length l1)) (Z.of_nat (length l2))) acc s
  = (Ok (acc ++ persistent_tabs_of (heap s) l2), s).
Proof.
  revert l1 acc. induction l2 as [|p l2 IH]; intros l1 acc Hs.
  - simpl. by rewrite app_nil_r.
  - rewrite seqZ_cons by (simpl; lia).
    assert (Hnext : seqZ (Z.succ (Z.of_nat (length l1)))
                         (Z.pred (Z.of_nat (length (p :: l2))))
                    = seqZ (Z.of_nat (length (l1 ++ [p])))
                           (Z.of_nat (length l2))).
    { f_equal; rewrite ?length_app; simpl; lia. }
    rewrite Hnext. clear Hnext.
    assert (Hs' : pages s = (l1 ++ [p]) ++ l2) by by rewrite <- app_assoc.
    specialize (IH (l1 ++ [p])).
    rewrite persistent_tabs_of_cons.
    cbn [save_persistent_tabs_loop].
    unfold widget. rewrite bind_gets, Hs, page_at_app_r. cbn [lookup list_lookup fmap option_fmap option_map attr].
    unfold bind at 1, ret at 1.
    unfold settings_get_persistent_enabled. rewrite bind_gets.
    destruct (persistent_enabled _).
    + unfold settings_id. rewrite bind_gets, IH by done.
      by rewrite <- app_assoc.
    + rewrite IH by done. done.
Qed.

Lemma save_persistent_tabs_run s :
  save_persistent_tabs s =
    (Ok tt, set_effects (λ l, l ++ saved (persistent_tabs_of (heap s) (pages s))) s).
Proof.
  unfold save_persistent_tabs, count, range. rewrite bind_gets.
  erewrite bind_Ok; last by apply (save_persistent_tabs_loop_spec s (pages s) []).
  unfold emit, modify, bind, set_effects, saved; simpl.
  by rewrite <- app_assoc.
Qed.

(** ** [change_persistent] *)

Lemma change_persistent_run s (tab_id : Z) (r : ref) (b : bool) :
  tabs s !! tab_id = Some r →
  let pages' :=
    alter_page
      (with_button (if b then persistent_image_label r else invisible_widget))
      (index_Z r (pages s)) (pages s) in
  change_persistent tab_id b s =
    (Ok tt,
     mkState (tabs s) (current_tab_id s) pages' (new_tab_button_pos s)
       (heap s) (next_ref s)
       (effects s ++ saved (persistent_tabs_of (heap s) pages'))).
Proof.
  intros Hr pages'. unfold change_persistent, tabs_getitem.
  unfold bind at 1. unfold bind at 1. unfold get at 1. rewrite Hr.
  unfold ret at 1. unfold indexOf. rewrite bind_gets.
  destruct b.
  - erewrite bind_Ok; last first.
    { unfold bind at 1. unfold bind at 1. unfold get at 1. rewrite Hr.
      unfold ret at 1. reflexivity. }
    by rewrite save_persistent_tabs_run.
  - erewrite bind_Ok; last reflexivity.
    by rewrite save_persistent_tabs_run.
Qed.

(** ** [add_tab] *)

Lemma index_of_app_fresh r (l : list Page) p :
  r ∉ page_widget <$> l → page_widget p = r →
  index_of r (l ++ [p]) = Some (length l).
Proof.
  intros Hr Hp. induction l as [|q l IH]; simpl.
  - by rewrite decide_True.
  - rewrite fmap_cons, not_elem_of_cons in Hr. destruct Hr as [Hq Hr].
    rewrite decide_False by done. by rewrite IH.
Qed.

Lemma alter_page_app_last f (l : list Page) p :
  alter_page f (Z.of_nat (length l)) (l ++ [p]) = l ++ [f p].
Proof.
  unfold alter_page. destruct (Z.ltb_spec (Z.of_nat (length l)) 0); [lia|].
  rewrite Nat2Z.id, alter_app_r_alt by lia.
  by rewrite Nat.sub_diag.
Qed.

Lemma add_tab_run s mode_settings :
  Forall (λ r, r < next_ref s) (page_widget <$> pages s) →
  ∃ s', add_tab mode_settings s = (Ok tt, s') ∧
    tabs s' = <[current_tab_id s := next_ref s]> (tabs s) ∧
    current_tab_id s' = (current_tab_id s + 1)%Z ∧
    pages s' = pages s ++ [mkPage (next_ref s) (strings_ "gui_new_tab") None
                                  (Some (added_button s mode_settings))] ∧
    new_tab_button_pos s' = new_tab_button_pos s ∧
    heap s' (next_ref s) = added_tab s mode_settings ∧
    (∀ r, r ≠ next_ref s → heap s' r = heap s r) ∧
    next_ref s' = S (next_ref s) ∧
    effects s' = effects s ++ TabConstructed (current_tab_id s)
                   :: saved (persistent_tabs_of (heap s') (pages s')).
Proof.
  destruct s as [tbs cur pgs pos h nr eff]. cbn [pages next_ref tabs current_tab_id new_tab_button_pos heap effects].
  intros Hfresh.
  assert (Hnotin : nr ∉ page_widget <$> pgs).
  { intros Hin. rewrite Forall_forall in Hfresh. apply Hfresh in Hin. lia. }
  unfold add_tab, new_Tab, emit, tabs_setitem, addTab, count, Tab_tab_id,
    settings_get_persistent_enabled.
  destruct mode_settings as [ms|];
    cbv [bind modify gets ret Tab_init set_effects set_heap set_next_ref
         set_tabs set_current_tab_id set_pages tabs current_tab_id pages
         new_tab_button_pos heap next_ref effects];
    rewrite ?fn_lookup_insert; cbn [tab_id Tab__init__ settings];
    (rewrite change_persistent_run with (r := nr)
       by (cbn [tabs]; apply lookup_insert_eq));
    cbn [tabs current_tab_id pages new_tab_button_pos heap next_ref effects];
    unfold index_Z; rewrite index_of_app_fresh by done;
    rewrite alter_page_app_last;
    (eexists; split; [reflexivity|]);
    cbn [tabs current_tab_id pages new_tab_button_pos heap next_ref effects];
    unfold added_button, added_tab, with_button;
    cbn [tabs current_tab_id pages new_tab_button_pos heap next_ref effects
         tab_id Tab__init__ settings page_widget tabText tabIcon];
    rewrite ?fn_lookup_insert, <- ?app_assoc;
    repeat split; try done;
    intros r Hr; by rewrite !fn_lookup_insert_ne.
Qed.

(** ** The invariant *)

Lemma wf_ext s s' :
  tabs s' = tabs s → entries s' = entries s →
  current_tab_id s' = current_tab_id s → next_ref s' = next_ref s →
  wf s → wf s'.
Proof.
  intros Ht He Hc Hn [H1 H2 H3 H4].
  split; rewrite ?Ht, ?He, ?Hc, ?Hn; done.
Qed.

Lemma wf_perm s s' :
  tabs s' = tabs s → entries s' ≡ₚ entries s →
  current_tab_id s' = current_tab_id s → next_ref s' = next_ref s →
  wf s → wf s'.
Proof.
  intros Ht He Hc Hn [H1 H2 H3 H4]. split.
  - rewrite Ht, H1. apply list_to_map_proper; [done|]. by symmetry.
  - by rewrite He.
  - by rewrite He, Hc.
  - by rewrite He, Hn.
Qed.

Lemma wf_size s : wf s → size (tabs s) = length (pages s).
Proof.
  intros [H1 H2 _ _]. rewrite H1, map_size_list_to_map by done.
  unfold entries. by rewrite length_fmap.
Qed.

Lemma wf_lookup s i p :
  wf s → pages s !! i = Some p →
  tabs s !! tab_id (heap s (page_widget p)) = Some (page_widget p).
Proof.
  intros [H1 H2 _ _] Hp. rewrite H1.
  apply elem_of_list_to_map; [done|].
  apply list_elem_of_lookup. exists i.
  unfold entries. by rewrite list_lookup_fmap, Hp.
Qed.

Lemma entries_alter_page s f index :
  (∀ p, page_widget (f p) = page_widget p) →
  entries (set_pages (alter_page f index) s) = entries s.
Proof.
  intros Hf. unfold entries, set_pages, alter_page; simpl.
  destruct (index <? 0)%Z; [done|].
  induction (pages s) as [|p l IH] in index |- *; [done|].
  destruct (Z.to_nat index) as [|n] eqn:E; simpl.
  - by rewrite Hf.
  - f_equal. specialize (IH (Z.of_nat n)). by rewrite Nat2Z.id in IH.
Qed.

Lemma list_to_map_delete_at (l : list (Z * ref)) i k v :
  NoDup l.*1 → l !! i = Some (k, v) →
  (list_to_map (delete i l) : gmap Z ref) = delete k (list_to_map l).
Proof.
  intros Hnd Hi.
  pose proof (delete_Permutation l i (k, v) Hi) as Hp.
  rewrite (list_to_map_proper l ((k, v) :: delete i l)) by done.
  rewrite list_to_map_cons, delete_insert_eq.
  symmetry. apply delete_id, not_elem_of_list_to_map_1.
  rewrite Hp in Hnd. simpl in Hnd. by apply NoDup_cons in Hnd as [? _].
Qed.

Lemma wf_init g h : wf (TabWidget__init__ g h).
Proof.
  unfold TabWidget__init__, move_new_tab_button. simpl.
  split; simpl; by constructor.
Qed.

Lemma wf_fresh s : wf s → Forall (λ r, r < next_ref s) (page_widget <$> pages s).
Proof.
  intros [_ _ _ H4]. unfold entries in H4.
  by rewrite <- list_fmap_compose in H4.
Qed.

Lemma wf_add_tab s mode_settings : wf s → wf (add_tab mode_settings s).2.
Proof.
  intros Hwf. pose proof (wf_fresh s Hwf) as Hfresh.
  destruct (add_tab_run s mode_settings Hfresh)
    as (s' & -> & Ht & Hc & Hp & _ & Hh & Hh' & Hn & _).
  destruct Hwf as [H1 H2 H3 H4]. simpl.
  assert (He : entries s' = entries s ++ [(current_tab_id s, next_ref s)]).
  { unfold entries. rewrite Hp, fmap_app. simpl. rewrite Hh. f_equal.
    - apply list_fmap_ext. intros i p Hi. simpl.
      rewrite Hh'; [done|].
      rewrite Forall_forall in Hfresh.
      assert (page_widget p < next_ref s); [|lia].
      apply Hfresh, list_elem_of_fmap. exists p. split; [done|].
      apply list_elem_of_lookup. eauto.
    - by destruct mode_settings. }
  assert (Hnew : current_tab_id s ∉ (entries s).*1).
  { intros Hin. rewrite Forall_forall in H3. apply H3 in Hin. lia. }
  split.
  - rewrite Ht, He, list_to_map_snoc by done. by rewrite H1.
  - rewrite He, fmap_app. apply NoDup_app. split; [done|]. split.
    + intros x Hx Hx'. apply list_elem_of_singleton in Hx'. by subst.
    + apply NoDup_singleton.
  - rewrite He, Hc, fmap_app. apply Forall_app. split.
    + eapply Forall_impl; [done|]. intros; simpl in *; lia.
    + apply Forall_singleton. simpl. lia.
  - rewrite He, Hn, fmap_app. apply Forall_app. split.
    + eapply Forall_impl; [done|]. intros; simpl in *; lia.
    + apply Forall_singleton. simpl. lia.
Qed.

(** ** [close_tab] *)

Lemma close_tab_denied s index p :
  page_at index (pages s) = Some p →
  can_close (heap s (page_widget p)) = false →
  close_tab index s = save_persistent_tabs s.
Proof.
  intros Hp Hc. unfold close_tab, widget, Tab_close_tab.
  rewrite bind_gets, Hp. cbn [fmap option_fmap option_map attr].
  unfold bind at 1, ret at 1. rewrite bind_gets, Hc.
  reflexivity.
Qed.

Lemma close_tab_allowed s index p :
  page_at index (pages s) = Some p →
  can_close (heap s (page_widget p)) = true →
  is_Some (tabs s !! tab_id (heap s (page_widget p))) →
  close_tab index s =
    (match pages (closed s index p) with
     | [] => new_tab_clicked ;;; save_persistent_tabs
     | _ :: _ => save_persistent_tabs
     end) (closed s index p).
Proof.
  intros Hp Hc [r Hr]. unfold close_tab, widget, Tab_close_tab.
  rewrite bind_gets, Hp. cbn [fmap option_fmap option_map attr].
  unfold bind at 1, ret at 1. rewrite bind_gets, Hc.
  unfold closed. destruct s as [tbs cur pgs pos h nr eff].
  cbn [pages next_ref tabs current_tab_id new_tab_button_pos heap effects] in *.
  unfold settings_get_persistent_enabled, settings_delete, settings_id, emit,
    removeTab, Tab_tab_id, tabs_delitem, count.
  destruct (persistent_enabled (settings (h (page_widget p)))) eqn:E;
    cbv [bind modify gets get ret set_effects set_heap set_next_ref
         set_tabs set_current_tab_id set_pages tabs current_tab_id pages
         new_tab_button_pos heap next_ref effects];
    rewrite E, Hr, ?app_nil_r;
    destruct (delete_page index pgs); reflexivity.
Qed.

Lemma delete_page_lookup index (l : list Page) p :
  page_at index l = Some p → delete_page index l = delete (Z.to_nat index) l.
Proof.
  intros Hp%page_at_Some. unfold delete_page.
  destruct (Z.ltb_spec index 0); [lia|done].
Qed.

Lemma Forall_fmap_delete {A B} (P : B → Prop) (f : A → B) (l : list A) i :
  Forall P (f <$> l) → Forall P (f <$> delete i l).
Proof.
  rewrite list_fmap_delete. generalize (f <$> l). intros k Hk. revert i.
  induction Hk; intros [|i]; simpl; auto.
Qed.

Lemma wf_closed s index p :
  wf s → page_at index (pages s) = Some p → wf (closed s index p).
Proof.
  intros Hwf Hp. pose proof Hwf as [H1 H2 H3 H4].
  pose proof (page_at_Some _ _ _ Hp) as [_ Hi].
  assert (He : entries (closed s index p) = delete (Z.to_nat index) (entries s)).
  { unfold entries, closed. simpl. rewrite (delete_page_lookup _ _ p) by done.
    by rewrite list_fmap_delete. }
  split.
  - rewrite He. unfold closed at 1. simpl. rewrite H1.
    symmetry. apply (list_to_map_delete_at _ _ _ (page_widget p)); [done|].
    unfold entries. by rewrite list_lookup_fmap, Hi.
  - rewrite He. eapply sublist_NoDup; [done|].
    apply fmap_sublist, sublist_delete.
  - rewrite He. by apply Forall_fmap_delete.
  - rewrite He. by apply Forall_fmap_delete.
Qed.

Lemma wf_save_persistent_tabs s : wf s → wf (save_persistent_tabs s).2.
Proof. rewrite save_persistent_tabs_run. by apply wf_ext. Qed.

Lemma wf_close_tab s index : wf s → wf (close_tab index s).2.
Proof.
  intros Hwf. destruct (page_at index (pages s)) as [p|] eqn:Hp.
  - destruct (can_close (heap s (page_widget p))) eqn:Hc.
    + rewrite (close_tab_allowed s index p Hp Hc); last first.
      { apply page_at_Some in Hp as [_ Hp].
        rewrite (wf_lookup s _ p Hwf Hp). eauto. }
      pose proof (wf_closed s index p Hwf Hp) as Hwf'.
      destruct (pages (closed s index p)).
      * unfold bind, new_tab_clicked.
        pose proof (wf_add_tab (closed s index p) None Hwf') as Hwf''.
        destruct (add_tab None (closed s index p)) as [[[]|e] s1]; [|done].
        by apply wf_save_persistent_tabs.
      * by apply wf_save_persistent_tabs.
    + rewrite (close_tab_denied s index p Hp Hc).
      by apply wf_save_persistent_tabs.
  - unfold close_tab, widget. rewrite bind_gets, Hp. done.
Qed.

(** ** The other events *)

Lemma change_title_run s (tab_id : Z) title :
  change_title tab_id title s =
    match tabs s !! tab_id with
    | Some r =>
        (Ok tt, set_pages (alter_page
           (λ p, mkPage (page_widget p) title (tabIcon p) (tabButton p))
           (index_Z r (pages s))) s)
    | None => (Raise (KeyError tab_id), s)
    end.
Proof.
  unfold change_title, tabs_getitem, bind at 1. unfold bind at 1, get at 1.
  destruct (tabs s !! tab_id); reflexivity.
Qed.

Lemma change_icon_run s (tab_id : Z) icon_path :
  change_icon tab_id icon_path s =
    match tabs s !! tab_id with
    | Some r =>
        (Ok tt, set_pages (alter_page
           (λ p, mkPage (page_widget p) (tabText p)
                        (Some (get_resource_path icon_path)) (tabButton p))
           (index_Z r (pages s))) s)
    | None => (Raise (KeyError tab_id), s)
    end.
Proof.
  unfold change_icon, tabs_getitem, bind at 1. unfold bind at 1, get at 1.
  destruct (tabs s !! tab_id); reflexivity.
Qed.

Lemma change_persistent_unknown s (tab_id : Z) b :
  tabs s !! tab_id = None →
  change_persistent tab_id b s = (Raise (KeyError tab_id), s).
Proof.
  intros H. unfold change_persistent, tabs_getitem, bind at 1.
  unfold bind at 1, get at 1. by rewrite H.
Qed.

Lemma move_page_Permutation from to (l : list Page) : move_page from to l ≡ₚ l.
Proof.
  unfold move_page. destruct (l !! from) as [p|] eqn:Hp; [|done].
  case_decide; [|done].
  rewrite <- Permutation_middle, take_drop.
  symmetry. by apply delete_Permutation.
Qed.

Lemma wf_step e s : wf s → wf (step e s).
Proof.
  intros Hwf. destruct e as [ms|sid|index|i title|i icon|i b| |g|g|from to|r ms c m];
    cbn [step].
  - by apply wf_add_tab.
  - by apply wf_add_tab.
  - by apply wf_close_tab.
  - rewrite change_title_run. destruct (tabs s !! i); [|done].
    eapply wf_ext; [..|done]; try done. by apply entries_alter_page.
  - rewrite change_icon_run. destruct (tabs s !! i); [|done].
    eapply wf_ext; [..|done]; try done. by apply entries_alter_page.
  - destruct (tabs s !! i) as [r|] eqn:Hr.
    + rewrite (change_persistent_run s i r b Hr). cbn [snd].
      eapply wf_ext; [..|done]; try done.
      apply (entries_alter_page s). by intros [].
    + by rewrite change_persistent_unknown.
  - by apply wf_save_persistent_tabs.
  - by eapply wf_ext; [..|done].
  - by eapply wf_ext; [..|done].
  - eapply wf_perm; [..|done]; try done.
    unfold entries. simpl. by rewrite move_page_Permutation.
  - eapply wf_ext; [..|done]; try done.
    unfold entries. simpl. apply list_fmap_ext. intros _ p _.
    f_equal. unfold insert, fn_insert. by case_decide; subst.
Qed.

Lemma reachable_wf s : reachable s → wf s.
Proof. induction 1; [apply wf_init|by apply wf_step]. Qed.

Lemma run_reachable es s : reachable s → reachable (run es s).
Proof.
  revert s. induction es as [|e es IH]; intros s Hs; [done|].
  simpl. apply IH. by constructor.
Qed.

(** ** The ids handed out *)

Lemma assigned_ids_app l1 l2 :
  assigned_ids (l1 ++ l2) = assigned_ids l1 ++ assigned_ids l2.
Proof. apply omap_app. Qed.

Lemma ids_logged_ext s s' :
  current_tab_id s' = current_tab_id s →
  assigned_ids (effects s') = assigned_ids (effects s) →
  ids_logged s → ids_logged s'.
Proof. intros Hc He [H1 H2]. split; by rewrite ?He, Hc. Qed.

Lemma ids_logged_save s : ids_logged s → ids_logged (save_persistent_tabs s).2.
Proof.
  rewrite save_persistent_tabs_run. apply ids_logged_ext; [done|].
  simpl. by rewrite assigned_ids_app, app_nil_r.
Qed.

Lemma ids_logged_add_tab s mode_settings :
  wf s → ids_logged s → ids_logged (add_tab mode_settings s).2.
Proof.
  intros Hwf [H1 H2].
  destruct (add_tab_run s mode_settings (wf_fresh s Hwf))
    as (s' & -> & _ & Hc & _ & _ & _ & _ & _ & He).
  simpl. split; [|lia].
  rewrite He, Hc, assigned_ids_app, H1. simpl.
  rewrite seqZ_app by lia. f_equal.
Qed.

Lemma ids_logged_closed s index p : ids_logged s → ids_logged (closed s index p).
Proof.
  apply ids_logged_ext; [done|]. unfold closed. simpl.
  rewrite assigned_ids_app. destruct (persistent_enabled _); simpl;
    by rewrite app_nil_r.
Qed.

Lemma ids_logged_close_tab s index :
  wf s → ids_logged s → ids_logged (close_tab index s).2.
Proof.
  intros Hwf Hl. destruct (page_at index (pages s)) as [p|] eqn:Hp.
  - destruct (can_close (heap s (page_widget p))) eqn:Hc.
    + rewrite (close_tab_allowed s index p Hp Hc); last first.
      { apply page_at_Some in Hp as [_ Hp].
        rewrite (wf_lookup s _ p Hwf Hp). eauto. }
      pose proof (wf_closed s index p Hwf Hp) as Hwf'.
      pose proof (ids_logged_closed s index p Hl) as Hl'.
      destruct (pages (closed s index p)).
      * unfold bind, new_tab_clicked.
        pose proof (ids_logged_add_tab (closed s index p) None Hwf' Hl') as Hl''.
        destruct (add_tab None (closed s index p)) as [[[]|e] s1]; [|done].
        by apply ids_logged_save.
      * by apply ids_logged_save.
    + rewrite (close_tab_denied s index p Hp Hc).
      by apply ids_logged_save.
  - unfold close_tab, widget. rewrite bind_gets, Hp. done.
Qed.

Lemma ids_logged_step e s : wf s → ids_logged s → ids_logged (step e s).
Proof.
  intros Hwf Hl.
  destruct e as [ms|sid|index|i title|i icon|i b| |g|g|from to|r ms c m];
    cbn [step].
  - by apply ids_logged_add_tab.
  - by apply ids_logged_add_tab.
  - by apply ids_logged_close_tab.
  - rewrite change_title_run. by destruct (tabs s !! i).
  - rewrite change_icon_run. by destruct (tabs s !! i).
  - destruct (tabs s !! i) as [r|] eqn:Hr.
    + rewrite (change_persistent_run s i r b Hr). cbn [snd].
      eapply ids_logged_ext; [..|done]; [done|]. simpl.
      by rewrite assigned_ids_app, app_nil_r.
    + by rewrite change_persistent_unknown.
  - by apply ids_logged_save.
  - done.
  - done.
  - done.
  - done.
Qed.

Lemma reachable_ids_logged s : reachable s → ids_logged s.
Proof.
  induction 1 as [g h|e s Hs IH].
  - split; [done|]. simpl. lia.
  - apply ids_logged_step; [by apply reachable_wf|done].
Qed.

(** ** [close_tab] when the tab lets itself be closed *)

Lemma wf_widgets_NoDup s : wf s → NoDup (page_widget <$> pages s).
Proof.
  intros [_ H2 _ _]. unfold entries in H2.
  rewrite <- list_fmap_compose in H2.
  apply (NoDup_fmap_1 (λ r, tab_id (heap s r))).
  by rewrite <- list_fmap_compose.
Qed.

Lemma close_tab_allowed_run s index p :
  wf s → page_at index (pages s) = Some p →
  can_close (heap s (page_widget p)) = true →
  let c := closed s index p in
  ∃ s', close_tab index s = (Ok tt, s') ∧
    match pages c with
    | [] =>
        tabs s' = <[current_tab_id s := next_ref s]> (tabs c) ∧
        current_tab_id s' = (current_tab_id s + 1)%Z ∧
        pages s' = [mkPage (next_ref s) (strings_ "gui_new_tab") None
                           (Some (added_button c None))] ∧
        new_tab_button_pos s' = new_tab_button_pos s ∧
        heap s' (next_ref s) = Tab__init__ (current_tab_id s) ∧
        (∀ r, r ≠ next_ref s → heap s' r = heap s r) ∧
        next_ref s' = S (next_ref s) ∧
        effects s' = effects c ++ TabConstructed (current_tab_id s)
                       :: saved (persistent_tabs_of (heap s') (pages s'))
                       ++ saved (persistent_tabs_of (heap s') (pages s'))
    | _ :: _ =>
        s' = set_effects
               (λ l, l ++ saved (persistent_tabs_of (heap s) (pages c))) c
    end.
Proof.
  intros Hwf Hp Hc c.
  rewrite (close_tab_allowed s index p Hp Hc); last first.
  { apply page_at_Some in Hp as [_ Hp].
    rewrite (wf_lookup s _ p Hwf Hp). eauto. }
  fold c. destruct (pages c) as [|q l] eqn:Hpc.
  - assert (Hfresh : Forall (λ r, r < next_ref c) (page_widget <$> pages c)).
    { rewrite Hpc. constructor. }
    destruct (add_tab_run c None Hfresh)
      as (s1 & Hrun & Ht & Hcur & Hpg & Hpos & Hh & Hh' & Hn & He).
    unfold new_tab_clicked. rewrite (bind_Ok _ _ _ _ _ Hrun).
    rewrite save_persistent_tabs_run. eexists. split; [reflexivity|].
    rewrite Hpc in Hpg. simpl in *.
    rewrite He. rewrite <- !app_assoc. simpl. by repeat split.
  - rewrite save_persistent_tabs_run. eexists. split; [reflexivity|].
    by rewrite Hpc.
Qed.

(** ** [move_new_tab_button] *)

Lemma foldl_add_foldr a (l : list Z) :
  foldl Z.add a l = (a + foldr Z.add 0 l)%Z.
Proof.
  revert a. induction l as [|x l IH]; intros a; simpl; [lia|].
  rewrite IH. lia.
Qed.

Lemma sum_tabRect_widths g s :
  sum (tabRect_width g <$> range (Z.of_nat (length (pages s)))) = tabs_width g s.
Proof.
  unfold sum, range, tabs_width, seqZ. rewrite foldl_add_foldr, Nat2Z.id.
  rewrite <- list_fmap_compose, Z.add_0_l. f_equal.
  apply list_fmap_ext. intros _ i _. simpl. f_equal. lia.
Qed.

(** ** [are_tabs_active] *)

Lemma are_tabs_active_loop_spec s (tab_ids : list Z) :
  (∀ i, i ∈ tab_ids → is_Some (tabs s !! i)) →
  ∃ b : bool, are_tabs_active_loop tab_ids s = (Ok b, s) ∧
    (b = true ↔
     ∃ i r mode, i ∈ tab_ids ∧ tabs s !! i = Some r ∧
       get_mode (heap s r) = Some mode ∧
       status (server_status mode) ≠ STATUS_STOPPED (server_status mode)).
Proof.
  induction tab_ids as [|i ids IH]; intros Hin.
  - exists false. split; [done|]. split; [done|].
    intros (i & r & m & Hi & _). by apply elem_of_nil in Hi.
  - destruct (Hin i) as [r Hr]; [left|].
    destruct IH as (b & Hrun & Hb).
    { intros j Hj. apply Hin. by right. }
    cbn [are_tabs_active_loop]. unfold tabs_getitem, bind at 1.
    unfold bind at 1, get at 1. rewrite Hr. unfold ret at 1.
    unfold Tab_get_mode. rewrite bind_gets.
    destruct (get_mode (heap s r)) as [m|] eqn:Hm.
    + case_decide as Hst.
      * exists true. split; [done|]. split; [|done].
        intros _. exists i, r, m. repeat split; try done. left.
      * exists b. split; [done|]. rewrite Hb. split.
        -- intros (j & r' & m' & Hj & ?). exists j, r', m'.
           split; [by right|done].
        -- intros (j & r' & m' & Hj & Hr' & Hm' & Hst').
           apply elem_of_cons in Hj as [->|Hj]; [|by eauto 10].
           rewrite Hr in Hr'. injection Hr' as <-.
           rewrite Hm in Hm'. injection Hm' as <-. done.
    + exists b. split; [done|]. rewrite Hb. split.
      * intros (j & r' & m' & Hj & ?). exists j, r', m'.
        split; [by right|done].
      * intros (j & r' & m' & Hj & Hr' & Hm' & Hst').
        apply elem_of_cons in Hj as [->|Hj]; [|by eauto 10].
        rewrite Hr in Hr'. injection Hr' as <-. congruence.
Qed.

(** ** The store and the ids, once more *)

Lemma last_saved_app_saved l x : last_saved (l ++ saved x) = Some x.
Proof.
  unfold last_saved, saved. rewrite omap_app. simpl. apply last_snoc.
Qed.

Lemma StronglySorted_seqZ m (k : nat) : StronglySorted Z.lt (seqZ m (Z.of_nat k)).
Proof.
  revert m. induction k as [|k IH]; intros m; [constructor|].
  rewrite seqZ_cons by lia.
  replace (Z.pred (Z.of_nat (S k))) with (Z.of_nat k) by lia.
  constructor; [apply IH|]. apply Forall_seqZ. intros; lia.
Qed.

(** * The claims *)

(** C1. In every state [save_persistent_tabs] returns normally; it sets the
    settings key "persistent_tabs" to the settings identifiers of the tabs
    whose persistence flag is enabled, in display order, saves the store
    right after, and does nothing else. *)
Theorem save_persistent_tabs_writes_order s :
  save_persistent_tabs s =
    (Ok tt,
     set_effects
       (λ l, l ++ [SettingsSet "persistent_tabs"
                     (persistent_tabs_of (heap s) (pages s));
                   SettingsSave]) s).
Proof. apply save_persistent_tabs_run. Qed.

(** C2, as the code has it.  When the tab at the index vetoes closing,
    [close_tab] returns normally and leaves the registry, the strip, the
    counter and the Tab objects as they were: no settings are deleted and
    the only effect is a save of the persisted order.  The order saved is
    the one of the state before the call, which is what a save in that
    state writes.  It is the list the store already held when the store
    was up to date, as it is right after any save; after a drag that no
    save followed it is not. *)
Theorem close_tab_vetoed s index p :
  page_at index (pages s) = Some p →
  can_close (heap s (page_widget p)) = false →
  ∃ s', close_tab index s = (Ok tt, s') ∧
    tabs s' = tabs s ∧ pages s' = pages s ∧ heap s' = heap s ∧
    current_tab_id s' = current_tab_id s ∧ next_ref s' = next_ref s ∧
    new_tab_button_pos s' = new_tab_button_pos s ∧
    effects s' = effects s ++ saved (persistent_tabs_of (heap s) (pages s)) ∧
    persistent_tabs_of (heap s') (pages s') = persistent_tabs_of (heap s) (pages s) ∧
    save_persistent_tabs s = (Ok tt, s') ∧
    (last_saved (effects s) = Some (persistent_tabs_of (heap s) (pages s)) →
     last_saved (effects s') = last_saved (effects s)) ∧
    (∀ s0, save_persistent_tabs s0 = (Ok tt, s) →
       last_saved (effects s') = last_saved (effects s)).
Proof.
  intros Hp Hc. rewrite (close_tab_denied s index p Hp Hc).
  rewrite save_persistent_tabs_run. eexists. split; [reflexivity|].
  cbn [tabs pages heap current_tab_id next_ref new_tab_button_pos effects
       set_effects].
  repeat split; try done.
  - intros ->. apply last_saved_app_saved.
  - intros s0 Hs0. rewrite save_persistent_tabs_run in Hs0.
    injection Hs0 as <-. cbn [effects set_effects heap pages].
    by rewrite !last_saved_app_saved.
Qed.

(** C3. From a well-formed state, [close_tab] at the index of a tab returns
    normally and leaves at least one tab, on the strip and in the registry.
    When that tab was the only one and lets itself be closed, exactly one
    tab is left: a blank one, just constructed with the id of the counter,
    alone in the registry and alone on the strip under the default title. *)
Theorem close_tab_never_empty s index p :
  wf s → page_at index (pages s) = Some p →
  ∃ s', close_tab index s = (Ok tt, s') ∧
    0 < length (pages s') ∧ size (tabs s') = length (pages s') ∧
    (pages s = [p] → can_close (heap s (page_widget p)) = true →
     ∃ b, pages s' = [mkPage (next_ref s) (strings_ "gui_new_tab") None (Some b)] ∧
       tabs s' = {[ current_tab_id s := next_ref s ]} ∧
       heap s' (next_ref s) = Tab__init__ (current_tab_id s) ∧
       assigned_ids (effects s') = assigned_ids (effects s) ++ [current_tab_id s]).
Proof.
  intros Hwf Hp.
  pose proof (wf_close_tab s index Hwf) as Hwf'.
  destruct (can_close (heap s (page_widget p))) eqn:Hc.
  - destruct (close_tab_allowed_run s index p Hwf Hp Hc) as (s' & Hrun & Hs').
    rewrite Hrun in Hwf'. exists s'. split; [done|]. simpl in Hwf'.
    assert (Hlen : 0 < length (pages s')).
    { destruct (pages (closed s index p)) as [|q l] eqn:Hpc.
      - destruct Hs' as (_ & _ & -> & _). simpl. lia.
      - subst s'. simpl in *. rewrite Hpc. simpl. lia. }
    split; [done|]. split; [by apply wf_size|].
    intros Hone _.
    assert (Hpc : pages (closed s index p) = []).
    { simpl. rewrite (delete_page_lookup _ _ p Hp), Hone.
      apply page_at_Some in Hp as [_ Hp]. rewrite Hone in Hp.
      by destruct (Z.to_nat index) as [|[|?]]. }
    rewrite Hpc in Hs'.
    destruct Hs' as (Ht & _ & Hpg & _ & Hh & _ & _ & He).
    eexists. split; [done|]. split; [|split; [done|]].
    + rewrite Ht. pose proof Hwf as [H1 _ _ _]. simpl. rewrite H1.
      unfold entries. rewrite Hone. simpl.
      by rewrite insert_empty, delete_singleton_eq, insert_empty.
    + rewrite He, !assigned_ids_app. simpl. rewrite assigned_ids_app.
      destruct (persistent_enabled _); simpl; by rewrite ?app_nil_r.
  - rewrite (close_tab_denied s index p Hp Hc) in *.
    rewrite save_persistent_tabs_run in *. eexists. split; [done|].
    simpl in *. split; [|split; [by apply wf_size in Hwf'|congruence]].
    apply page_at_Some in Hp as [_ Hp%lookup_lt_Some]. lia.
Qed.

(** C4. In every state the widget reaches from its construction, whatever
    the events, the registry has as many entries as the strip has tabs;
    [add_tab] then adds one to both and [close_tab] keeps them equal. *)
Theorem registry_size_is_count g h (es : list Event) :
  let s := run es (TabWidget__init__ g h) in
  size (tabs s) = length (pages s) ∧
  (∀ mode_settings,
     let s' := (add_tab mode_settings s).2 in
     size (tabs s') = S (size (tabs s)) ∧
     length (pages s') = S (length (pages s))) ∧
  (∀ index,
     let s' := (close_tab index s).2 in
     size (tabs s') = length (pages s')).
Proof.
  intros s.
  assert (Hwf : wf s).
  { apply reachable_wf, run_reachable. constructor. }
  split; [by apply wf_size|]. split.
  - intros ms s'.
    assert (Hwf' : wf s') by by apply wf_add_tab.
    apply wf_size in Hwf'. rewrite Hwf', (wf_size s Hwf).
    subst s'.
    destruct (add_tab_run s ms (wf_fresh s Hwf)) as (s' & Hrun & _ & _ & Hpg & _).
    rewrite Hrun. simpl. rewrite Hpg, length_app. simpl. lia.
  - intros index s'. apply wf_size. by apply wf_close_tab.
Qed.

(** C5. Two runs of [save_persistent_tabs] in a row both return normally
    and write the same list, and a run changes nothing but the log of
    effects: the registry, the strip, the counter, the "+" button and the
    Tab objects stay as they were. *)
Theorem save_persistent_tabs_idempotent s :
  ∃ l s1 s2,
    save_persistent_tabs s = (Ok tt, s1) ∧
    save_persistent_tabs s1 = (Ok tt, s2) ∧
    effects s1 = effects s ++ saved l ∧
    effects s2 = effects s1 ++ saved l ∧
    s1 = set_effects (λ _, effects s1) s ∧
    s2 = set_effects (λ _, effects s2) s.
Proof.
  exists (persistent_tabs_of (heap s) (pages s)).
  do 2 eexists. split; [apply save_persistent_tabs_run|].
  split; [apply save_persistent_tabs_run|]. done.
Qed.

(** C6. From a well-formed state, [close_tab] at the index of a tab that
    lets itself be closed returns normally; it deletes the settings of that
    tab, and only those, when the tab is persistent and deletes no settings
    when it is not; in both cases the tab is gone from the strip and its id
    from the registry. *)
Theorem close_tab_deletes_settings_iff_persistent s index p :
  wf s → page_at index (pages s) = Some p →
  can_close (heap s (page_widget p)) = true →
  let t := heap s (page_widget p) in
  ∃ s', close_tab index s = (Ok tt, s') ∧
    deleted_settings (effects s') =
      deleted_settings (effects s) ++
      (if persistent_enabled (settings t) then [ms_id (settings t)] else []) ∧
    (page_widget p ∉ page_widget <$> pages s') ∧
    tabs s' !! tab_id t = None ∧
    (∀ i r, tabs s' !! i = Some r → r ≠ page_widget p).
Proof.
  intros Hwf Hp Hc t.
  pose proof (wf_close_tab s index Hwf) as Hwf'.
  destruct (close_tab_allowed_run s index p Hwf Hp Hc) as (s' & Hrun & Hs').
  rewrite Hrun in Hwf'. simpl in Hwf'.
  exists s'. split; [done|].
  pose proof (page_at_Some _ _ _ Hp) as [_ Hi].
  assert (Hgone : page_widget p ∉ page_widget <$> pages (closed s index p)).
  { simpl. rewrite (delete_page_lookup _ _ p Hp), list_fmap_delete.
    pose proof (wf_widgets_NoDup s Hwf) as Hnd.
    rewrite (delete_Permutation (page_widget <$> pages s) (Z.to_nat index)
               (page_widget p)) in Hnd
      by by rewrite list_lookup_fmap, Hi.
    by apply NoDup_cons in Hnd as [? _]. }
  assert (Hnr : page_widget p < next_ref s).
  { pose proof (wf_fresh s Hwf) as Hf. rewrite Forall_forall in Hf.
    apply Hf, list_elem_of_fmap. exists p. split; [done|].
    apply list_elem_of_lookup. eauto. }
  assert (Hid : (tab_id t < current_tab_id s)%Z).
  { pose proof Hwf as [_ _ H3 _]. rewrite Forall_forall in H3.
    apply H3, list_elem_of_fmap. exists (tab_id t, page_widget p).
    split; [done|]. apply list_elem_of_fmap. exists p. split; [done|].
    apply list_elem_of_lookup. eauto. }
  assert (Hdel : ∀ l, deleted_settings (effects (closed s index p) ++ l)
                 = (deleted_settings (effects s) ++
                    (if persistent_enabled (settings t)
                     then [ms_id (settings t)] else []))
                   ++ deleted_settings l).
  { intros l. simpl. unfold deleted_settings. rewrite !omap_app. fold t.
    by destruct (persistent_enabled (settings t)). }
  assert (Hpages : (page_widget p ∉ page_widget <$> pages s') ∧
                   tabs s' !! tab_id t = None ∧
                   deleted_settings (effects s') =
                     deleted_settings (effects s) ++
                     (if persistent_enabled (settings t)
                      then [ms_id (settings t)] else [])).
  { destruct (pages (closed s index p)) as [|q l] eqn:Hpc.
    - destruct Hs' as (Ht & _ & Hpg & _ & _ & _ & _ & He).
      rewrite Hpg, Ht, He, Hdel. simpl. rewrite app_nil_r.
      split; [|split; [|done]].
      + intros Hin%list_elem_of_singleton. lia.
      + rewrite lookup_insert_ne by lia. apply lookup_delete_eq.
    - subst s'. split.
      { cbn [pages set_effects]. by rewrite Hpc. }
      split; [apply lookup_delete_eq|].
      cbn [effects set_effects]. rewrite Hdel. simpl. by rewrite app_nil_r. }
  destruct Hpages as (H1 & H2 & H3). repeat split; try done.
  intros i r Hr ->. apply H1.
  pose proof Hwf' as [Ht _ _ _]. rewrite Ht in Hr.
  apply elem_of_list_to_map_2 in Hr.
  apply list_elem_of_fmap in Hr as (q & Hq & Hin).
  injection Hq as _ ->. apply list_elem_of_fmap. eauto.
Qed.

(** C7, as the code has it.  With a tab id that is not in the registry,
    [change_title] and [change_icon] raise [KeyError]; the state, and so the
    registry and the strip, stay as they were. *)
Theorem change_unknown_tab_raises s (tab_id : Z) title icon_path :
  tabs s !! tab_id = None →
  change_title tab_id title s = (Raise (KeyError tab_id), s) ∧
  change_icon tab_id icon_path s = (Raise (KeyError tab_id), s).
Proof.
  intros H. by rewrite change_title_run, change_icon_run, H.
Qed.

(** C8. In every state the widget reaches from its construction, whatever
    the events, the ids handed to the tabs so far are 0, 1, ... up to the
    counter, in that order: each one is greater than all the ones before
    it and none occurs twice, also after tabs were closed.  A further
    [add_tab] hands out the value of the counter, registers the new tab
    under it, and that id is greater than all the earlier ones. *)
Theorem tab_ids_strictly_increase g h (es : list Event) :
  let s := run es (TabWidget__init__ g h) in
  assigned_ids (effects s) = seqZ 0 (current_tab_id s) ∧
  StronglySorted Z.lt (assigned_ids (effects s)) ∧
  NoDup (assigned_ids (effects s)) ∧
  (∀ mode_settings,
     let s' := (add_tab mode_settings s).2 in
     assigned_ids (effects s') = assigned_ids (effects s) ++ [current_tab_id s] ∧
     tabs s' !! current_tab_id s = Some (next_ref s) ∧
     tab_id (heap s' (next_ref s)) = current_tab_id s ∧
     Forall (λ i, i < current_tab_id s)%Z (assigned_ids (effects s))).
Proof.
  intros s.
  assert (Hr : reachable s) by (apply run_reachable; constructor).
  pose proof (reachable_wf s Hr) as Hwf.
  destruct (reachable_ids_logged s Hr) as [Hl Hpos].
  split; [done|]. rewrite Hl. split; [|split].
  - rewrite <- (Z2Nat.id (current_tab_id s)) by done.
    apply StronglySorted_seqZ.
  - apply NoDup_seqZ.
  - intros ms s'. subst s'.
    destruct (add_tab_run s ms (wf_fresh s Hwf))
      as (s' & -> & Ht & _ & _ & _ & Hh & _ & _ & He).
    simpl. rewrite He, Ht, Hh, assigned_ids_app, Hl. simpl.
    split; [done|]. split; [apply lookup_insert_eq|].
    split; [by destruct ms|].
    apply Forall_seqZ. intros; lia.
Qed.

(** C9. [move_new_tab_button] returns normally and moves only the "+"
    button, along x: to the width of the widget minus 61 when the widths of
    the tab headers add up to more than the width of the widget, and to the
    preferred width of the tab bar otherwise. *)
Theorem move_new_tab_button_position g s :
  ∃ x, move_new_tab_button g s =
         (Ok tt, set_new_tab_button_pos (λ pos, (x, pos.2)) s) ∧
    ((tabs_width g s > width g)%Z → x = (width g - 61)%Z) ∧
    ((tabs_width g s ≤ width g)%Z → x = sizeHint_width g).
Proof.
  unfold move_new_tab_button, count. rewrite bind_gets, sum_tabRect_widths.
  rewrite bind_gets. destruct (Z.gtb_spec (tabs_width g s) (width g)).
  - eexists. split; [reflexivity|]. split; [done|lia].
  - eexists. split; [reflexivity|]. split; [lia|done].
Qed.

(** C10. [are_tabs_active] returns normally and changes nothing; its answer
    is true exactly when some registered tab has a mode whose server status
    is not [STATUS_STOPPED].  Tabs without a mode do not count: when no
    registered tab has a mode the answer is false. *)
Theorem are_tabs_active_correct s :
  ∃ b : bool, are_tabs_active s = (Ok b, s) ∧
    (b = true ↔ some_tab_active s) ∧
    ((∀ i r, tabs s !! i = Some r → get_mode (heap s r) = None) → b = false).
Proof.
  unfold are_tabs_active, bind at 1, get at 1.
  destruct (are_tabs_active_loop_spec s ((map_to_list (tabs s)).*1))
    as (b & Hrun & Hb).
  { intros i (ir & -> & Hin)%list_elem_of_fmap. destruct ir as [i r].
    apply elem_of_map_to_list in Hin. simpl. eauto. }
  exists b. split; [done|].
  assert (Hiff : b = true ↔ some_tab_active s).
  { rewrite Hb. unfold some_tab_active. split.
    - intros (i & r & m & _ & ?). eauto.
    - intros (i & r & m & Hi & ?). exists i, r, m. split; [|done].
      apply list_elem_of_fmap. exists (i, r). split; [done|].
      by apply elem_of_map_to_list. }
  split; [done|]. intros Hnone.
  destruct b; [|done]. destruct Hiff as [Hiff _].
  destruct (Hiff eq_refl) as (i & r & m & Hi & Hm & _).
  rewrite (Hnone i r Hi) in Hm. done.
Qed.

(** * Further properties *)

(** ** Finding a tab on the strip *)

Lemma index_of_Some r (l : list Page) i :
  index_of r l = Some i → ∃ p, l !! i = Some p ∧ page_widget p = r.
Proof.
  revert i. induction l as [|q l IH]; intros i; simpl; [done|].
  case_decide as Hq.
  - intros [= <-]. by exists q.
  - destruct (index_of r l) as [j|]; simpl; [|done].
    intros [= <-]. by apply IH.
Qed.

Lemma index_of_lookup (l : list Page) i p :
  NoDup (page_widget <$> l) → l !! i = Some p →
  index_of (page_widget p) l = Some i.
Proof.
  revert i. induction l as [|q l IH]; intros i Hnd Hi; [done|].
  rewrite fmap_cons in Hnd. apply NoDup_cons in Hnd as [Hq Hnd].
  destruct i as [|i]; simpl in *.
  - injection Hi as ->. by rewrite decide_True.
  - rewrite decide_False.
    + by rewrite (IH i).
    + intros Heq. apply Hq. rewrite Heq.
      apply list_elem_of_fmap. exists p. split; [done|].
      apply list_elem_of_lookup. eauto.
Qed.

Lemma alter_page_lookup f (l : list Page) i p :
  l !! i = Some p →
  alter_page f (Z.of_nat i) l !! i = Some (f p) ∧
  (∀ j, j ≠ i → alter_page f (Z.of_nat i) l !! j = l !! j).
Proof.
  intros Hi. unfold alter_page.
  destruct (Z.ltb_spec (Z.of_nat i) 0); [lia|]. rewrite Nat2Z.id. split.
  - by rewrite list_lookup_alter_eq, Hi.
  - intros j Hj. by apply list_lookup_alter_ne.
Qed.

Lemma wf_registered s (id : Z) (r : ref) :
  wf s → tabs s !! id = Some r →
  ∃ i p, pages s !! i = Some p ∧ page_widget p = r ∧ tab_id (heap s r) = id.
Proof.
  intros [H1 _ _ _] Hr. rewrite H1 in Hr.
  apply elem_of_list_to_map_2 in Hr.
  apply list_elem_of_fmap in Hr as (p & [= -> ->] & Hp).
  apply list_elem_of_lookup in Hp as [i Hi]. eauto.
Qed.

Lemma wf_index s (id : Z) (r : ref) :
  wf s → tabs s !! id = Some r →
  ∃ i p, pages s !! i = Some p ∧ page_widget p = r ∧
    tab_id (heap s r) = id ∧ index_Z r (pages s) = Z.of_nat i.
Proof.
  intros Hwf Hr.
  destruct (wf_registered s id r Hwf Hr) as (i & p & Hi & <- & Hid).
  exists i, p. repeat split; try done.
  unfold index_Z.
  by rewrite (index_of_lookup _ i p (wf_widgets_NoDup s Hwf) Hi).
Qed.

Lemma wf_counter_free s : wf s → tabs s !! current_tab_id s = None.
Proof.
  intros [H1 _ H3 _]. rewrite H1. apply not_elem_of_list_to_map_1.
  intros Hin. rewrite Forall_forall in H3. apply H3 in Hin. lia.
Qed.

(** X1. In every state the widget reaches from its construction the
    registry and the strip hold the same tabs: an id is registered for a
    tab exactly when that tab is a page of the strip and carries that id,
    and no tab is on the strip twice. *)
Theorem registry_matches_strip g h (es : list Event) :
  let s := run es (TabWidget__init__ g h) in
  (∀ (id : Z) (r : ref),
     tabs s !! id = Some r ↔
     ∃ i p, pages s !! i = Some p ∧ page_widget p = r ∧
            tab_id (heap s r) = id) ∧
  NoDup (page_widget <$> pages s).
Proof.
  intros s.
  assert (Hwf : wf s).
  { apply reachable_wf, run_reachable. constructor. }
  split; [|by apply wf_widgets_NoDup].
  intros id r. split; [by apply wf_registered|].
  intros (i & p & Hi & <- & <-). by apply (wf_lookup s i).
Qed.

(** X2. In every state the widget reaches from its construction no tab is
    registered under the value of the counter, so the assignment
    [self.tabs[self.current_tab_id] = tab] of [add_tab] never replaces a
    tab: every tab registered before is still registered, under the same
    id, after [add_tab]. *)
Theorem add_tab_keeps_registered_tabs g h (es : list Event) :
  let s := run es (TabWidget__init__ g h) in
  tabs s !! current_tab_id s = None ∧
  ∀ mode_settings (id : Z) (r : ref),
    tabs s !! id = Some r →
    tabs (add_tab mode_settings s).2 !! id = Some r.
Proof.
  intros s.
  assert (Hwf : wf s).
  { apply reachable_wf, run_reachable. constructor. }
  pose proof (wf_counter_free s Hwf) as Hfree.
  split; [done|]. intros ms id r Hr.
  destruct (add_tab_run s ms (wf_fresh s Hwf)) as (s' & Hrun & Ht & _).
  rewrite Hrun. simpl. rewrite Ht, lookup_insert_ne; [done|].
  intros <-. congruence.
Qed.

(** X3. From a well-formed state, [change_title] and [change_icon] with a
    registered tab id return normally and rewrite the header of that tab's
    own page, and nothing else: the text, or the icon taken through
    [get_resource_path], is replaced on the page that shows the registered
    tab, the other pages, the registry and the Tab objects stay as they
    were, and nothing is saved. *)
Theorem change_title_and_icon_of_registered_tab s (id : Z) (r : ref) title icon_path :
  wf s → tabs s !! id = Some r →
  ∃ i p, pages s !! i = Some p ∧ page_widget p = r ∧
    (∃ s', change_title id title s = (Ok tt, s') ∧
       pages s' !! i = Some (mkPage r title (tabIcon p) (tabButton p)) ∧
       (∀ j, j ≠ i → pages s' !! j = pages s !! j) ∧
       s' = set_pages (λ _, pages s') s) ∧
    (∃ s', change_icon id icon_path s = (Ok tt, s') ∧
       pages s' !! i = Some (mkPage r (tabText p)
                               (Some (get_resource_path icon_path)) (tabButton p)) ∧
       (∀ j, j ≠ i → pages s' !! j = pages s !! j) ∧
       s' = set_pages (λ _, pages s') s).
Proof.
  intros Hwf Hr.
  destruct (wf_index s id r Hwf Hr) as (i & p & Hi & Hp & _ & Hidx).
  exists i, p. split; [done|]. split; [done|].
  rewrite change_title_run, change_icon_run, Hr, Hidx. split.
  - eexists. split; [reflexivity|]. cbn [pages set_pages].
    destruct (alter_page_lookup
      (λ p, mkPage (page_widget p) title (tabIcon p) (tabButton p))
      (pages s) i p Hi) as [H1 H2].
    rewrite H1, Hp. done.
  - eexists. split; [reflexivity|]. cbn [pages set_pages].
    destruct (alter_page_lookup
      (λ p, mkPage (page_widget p) (tabText p)
              (Some (get_resource_path icon_path)) (tabButton p))
      (pages s) i p Hi) as [H1 H2].
    rewrite H1, Hp. done.
Qed.

Lemma persistent_tabs_of_alter_page h f index (l : list Page) :
  (∀ p, page_widget (f p) = page_widget p) →
  persistent_tabs_of h (alter_page f index l) = persistent_tabs_of h l.
Proof.
  intros Hf. unfold alter_page. destruct (index <? 0)%Z; [done|].
  generalize (Z.to_nat index). intros n.
  induction l as [|q l IH] in n |- *; [done|].
  destruct n as [|n].
  - change (alter f 0 (q :: l)) with (f q :: l).
    by rewrite !persistent_tabs_of_cons, Hf.
  - change (alter f (S n) (q :: l)) with (q :: alter f n l).
    by rewrite !persistent_tabs_of_cons, IH.
Qed.

(** X4. From a well-formed state, [change_persistent] with a registered tab
    id returns normally; it puts on the header of that tab's own page the
    tab's persistent image when the flag it is given is true and an
    invisible widget when it is false, leaves the other pages and the
    registry as they were, and then saves the persisted order.  The order
    saved is computed from the settings of the tabs: it does not depend on
    the flag given. *)
Theorem change_persistent_of_registered_tab s (id : Z) (r : ref) (b : bool) :
  wf s → tabs s !! id = Some r →
  ∃ i p s', pages s !! i = Some p ∧ page_widget p = r ∧
    change_persistent id b s = (Ok tt, s') ∧
    pages s' !! i =
      Some (mkPage r (tabText p) (tabIcon p)
              (Some (if b then persistent_image_label r else invisible_widget))) ∧
    (∀ j, j ≠ i → pages s' !! j = pages s !! j) ∧
    tabs s' = tabs s ∧ heap s' = heap s ∧
    current_tab_id s' = current_tab_id s ∧
    effects s' = effects s ++ saved (persistent_tabs_of (heap s) (pages s)).
Proof.
  intros Hwf Hr.
  destruct (wf_index s id r Hwf Hr) as (i & p & Hi & Hp & _ & Hidx).
  exists i, p. eexists. split; [done|]. split; [done|].
  rewrite (change_persistent_run s id r b Hr), Hidx.
  split; [reflexivity|].
  cbn [pages tabs heap current_tab_id effects].
  destruct (alter_page_lookup
    (with_button (if b then persistent_image_label r else invisible_widget))
    (pages s) i p Hi) as [H1 H2].
  rewrite H1. unfold with_button at 1. rewrite Hp.
  repeat split; try done.
  f_equal. f_equal. apply persistent_tabs_of_alter_page. by intros [].
Qed.

(** X5. With a tab id that is not in the registry, [change_persistent]
    raises [KeyError] at its first lookup: the state stays as it was, no
    header is touched and nothing is saved. *)
Theorem change_persistent_unknown_tab_raises s (id : Z) (b : bool) :
  tabs s !! id = None →
  change_persistent id b s = (Raise (KeyError id), s) ∧
  (change_persistent id b s).2.(effects) = effects s.
Proof.
  intros H. by rewrite change_persistent_unknown.
Qed.

(** X6. When no tab is at the index, because the index is negative or not
    below the number of tabs, [close_tab] raises [AttributeError] at
    [tab.close_tab()]: the state stays as it was and, unlike after a veto,
    the persisted order is not saved. *)
Theorem close_tab_without_tab_raises s index :
  (index < 0 ∨ Z.of_nat (length (pages s)) ≤ index)%Z →
  close_tab index s = (Raise (AttributeError "close_tab"), s).
Proof.
  intros Hidx. unfold close_tab, widget. rewrite bind_gets.
  replace (page_at index (pages s)) with (@None Page); [done|].
  unfold page_at. destruct (Z.ltb_spec index 0); [done|].
  symmetry. apply lookup_ge_None. lia.
Qed.

(** ** The persisted order along the strip *)

Lemma persistent_tabs_of_app h (l1 l2 : list Page) :
  persistent_tabs_of h (l1 ++ l2) =
    persistent_tabs_of h l1 ++ persistent_tabs_of h l2.
Proof.
  unfold persistent_tabs_of. by rewrite filter_app, fmap_app.
Qed.

Lemma persistent_tabs_of_ext h h' (l : list Page) :
  (∀ r, r ∈ page_widget <$> l → h' r = h r) →
  persistent_tabs_of h' l = persistent_tabs_of h l.
Proof.
  induction l as [|p l IH]; intros Hh; [done|].
  rewrite !persistent_tabs_of_cons, Hh, IH; [done| |].
  - intros r Hr. apply Hh. rewrite fmap_cons. by right.
  - rewrite fmap_cons. left.
Qed.

Lemma add_tab_order s mode_settings :
  wf s →
  ∃ s', add_tab mode_settings s = (Ok tt, s') ∧
    let t := heap s' (next_ref s) in
    pages s' =
      pages s ++
      [mkPage (next_ref s) (strings_ "gui_new_tab") None
         (Some (if persistent_enabled (settings t)
                then persistent_image_label (next_ref s)
                else invisible_widget))] ∧
    tabs s' = <[current_tab_id s := next_ref s]> (tabs s) ∧
    current_tab_id s' = (current_tab_id s + 1)%Z ∧
    tab_id t = current_tab_id s ∧
    settings t = match mode_settings with
                 | Some ms => ms
                 | None => init_settings (tab_py (current_tab_id s))
                 end ∧
    (∀ r, r ∈ page_widget <$> pages s → heap s' r = heap s r) ∧
    persistent_tabs_of (heap s') (pages s') =
      persistent_tabs_of (heap s) (pages s) ++
      (if persistent_enabled (settings t) then [ms_id (settings t)] else []) ∧
    last_saved (effects s') = Some (persistent_tabs_of (heap s') (pages s')).
Proof.
  intros Hwf. pose proof (wf_fresh s Hwf) as Hfresh.
  destruct (add_tab_run s mode_settings Hfresh)
    as (s' & Hrun & Ht & Hc & Hp & _ & Hh & Hh' & _ & He).
  exists s'. split; [done|]. cbn zeta.
  assert (Hold : ∀ r, r ∈ page_widget <$> pages s → heap s' r = heap s r).
  { intros r Hr. apply Hh'. rewrite Forall_forall in Hfresh.
    apply Hfresh in Hr. lia. }
  rewrite Hh. split; [|split; [done|split; [done|]]].
  { rewrite Hp. unfold added_button. done. }
  split; [by destruct mode_settings|].
  split; [by destruct mode_settings|].
  split; [done|]. split.
  - rewrite Hp, persistent_tabs_of_app, (persistent_tabs_of_ext (heap s)) by done.
    f_equal. rewrite persistent_tabs_of_cons. cbn [page_widget].
    rewrite Hh. by rewrite app_nil_r.
  - rewrite He.
    change (TabConstructed (current_tab_id s) :: saved ?l)
      with ([TabConstructed (current_tab_id s)] ++ saved l).
    rewrite app_assoc. apply last_saved_app_saved.
Qed.

(** X7. From a well-formed state [add_tab] returns normally.  The new tab
    carries the id of the counter and the mode settings it was given (the
    default ones of its class without any); it is registered under that id
    and is the last page of the strip, under the default title and with the
    indicator of its persistence flag.  The tabs that were there keep their
    place and their state, and the order saved is the former persisted
    order followed by the settings identifier of the new tab when the new
    tab is persistent. *)
Theorem add_tab_appends_tab s mode_settings :
  wf s →
  ∃ s', add_tab mode_settings s = (Ok tt, s') ∧
    let t := heap s' (next_ref s) in
    pages s' =
      pages s ++
      [mkPage (next_ref s) (strings_ "gui_new_tab") None
         (Some (if persistent_enabled (settings t)
                then persistent_image_label (next_ref s)
                else invisible_widget))] ∧
    tabs s' = <[current_tab_id s := next_ref s]> (tabs s) ∧
    current_tab_id s' = (current_tab_id s + 1)%Z ∧
    tab_id t = current_tab_id s ∧
    settings t = match mode_settings with
                 | Some ms => ms
                 | None => init_settings (tab_py (current_tab_id s))
                 end ∧
    (∀ r, r ∈ page_widget <$> pages s → heap s' r = heap s r) ∧
    persistent_tabs_of (heap s') (pages s') =
      persistent_tabs_of (heap s) (pages s) ++
      (if persistent_enabled (settings t) then [ms_id (settings t)] else []) ∧
    last_saved (effects s') = Some (persistent_tabs_of (heap s') (pages s')).
Proof. apply add_tab_order. Qed.




(** ** Closing one tab of several, and the last one *)

(** X9. From a well-formed state with more than one tab, [close_tab] at the
    index of a tab that lets itself be closed takes out that page and that
    registry entry only: the other pages keep their order, the other
    entries, the counter and the Tab objects stay as they were, no tab is
    constructed, and the order saved is the persisted order of the strip
    without the closed page. *)
Theorem close_tab_of_several s index p :
  wf s → page_at index (pages s) = Some p →
  can_close (heap s (page_widget p)) = true →
  1 < length (pages s) →
  ∃ s', close_tab index s = (Ok tt, s') ∧
    pages s' = delete (Z.to_nat index) (pages s) ∧
    tabs s' = delete (tab_id (heap s (page_widget p))) (tabs s) ∧
    heap s' = heap s ∧ current_tab_id s' = current_tab_id s ∧
    assigned_ids (effects s') = assigned_ids (effects s) ∧
    last_saved (effects s') =
      Some (persistent_tabs_of (heap s) (delete (Z.to_nat index) (pages s))).
Proof.
  intros Hwf Hp Hc Hlen.
  destruct (close_tab_allowed_run s index p Hwf Hp Hc) as (s' & Hrun & Hs').
  exists s'. split; [done|].
  assert (Hpc : pages (closed s index p) = delete (Z.to_nat index) (pages s)).
  { simpl. by apply (delete_page_lookup _ _ p). }
  destruct (pages (closed s index p)) as [|q l] eqn:Hq.
  - apply (f_equal length) in Hpc. rewrite length_delete in Hpc; last first.
    { apply page_at_Some in Hp as [_ Hp]. eauto. }
    simpl in Hpc. lia.
  - subst s'. cbn [pages tabs heap current_tab_id effects set_effects].
    rewrite Hq, <- Hpc. cbn [closed tabs heap current_tab_id effects].
    repeat split; try done.
    + rewrite !assigned_ids_app. simpl.
      destruct (persistent_enabled _); simpl; by rewrite !app_nil_r.
    + apply last_saved_app_saved.
Qed.

(** X10. From a well-formed state whose only tab lets itself be closed,
    [close_tab] saves the persisted order twice: once inside the [add_tab]
    that replaces the tab and once at its own end.  Both saves write the
    same list, the settings identifier of the replacing blank tab when its
    default settings are persistent and the empty list otherwise; before
    them come the deletion of the closed tab's settings, if it was
    persistent, and the construction of the new tab. *)
Theorem close_tab_of_last_tab_saves_twice s index p :
  wf s → page_at index (pages s) = Some p →
  can_close (heap s (page_widget p)) = true →
  pages s = [p] →
  let t := heap s (page_widget p) in
  let d := init_settings (tab_py (current_tab_id s)) in
  let l := if persistent_enabled d then [ms_id d] else [] in
  ∃ s', close_tab index s = (Ok tt, s') ∧
    effects s' =
      effects s ++
      (if persistent_enabled (settings t)
       then [ModeSettingsDelete (ms_id (settings t))] else []) ++
      [TabConstructed (current_tab_id s)] ++ saved l ++ saved l.
Proof.
  intros Hwf Hp Hc Hone t d l.
  destruct (close_tab_allowed_run s index p Hwf Hp Hc) as (s' & Hrun & Hs').
  exists s'. split; [done|].
  assert (Hpc : pages (closed s index p) = []).
  { simpl. rewrite (delete_page_lookup _ _ p Hp), Hone.
    apply page_at_Some in Hp as [_ Hp]. rewrite Hone in Hp.
    by destruct (Z.to_nat index) as [|[|?]]. }
  rewrite Hpc in Hs'. destruct Hs' as (_ & _ & Hpg & _ & Hh & _ & _ & He).
  rewrite He, Hpg, persistent_tabs_of_cons. cbn [page_widget].
  rewrite Hh. cbn [closed effects Tab__init__ settings].
  fold t d. rewrite app_nil_r, <- app_assoc. done.
Qed.

(** ** The indicators on the headers *)

Lemma own_button_add s mode_settings :
  wf s → Forall own_button (pages s) →
  Forall own_button (pages (add_tab mode_settings s).2).
Proof.
  intros Hwf Hb.
  destruct (add_tab_run s mode_settings (wf_fresh s Hwf))
    as (s' & -> & _ & _ & Hp & _).
  cbn [snd]. rewrite Hp. apply Forall_app. split; [done|].
  apply Forall_singleton. unfold own_button, added_button. simpl.
  destruct (persistent_enabled _); auto.
Qed.

Lemma own_button_alter_page f index (l : list Page) :
  (∀ p, page_widget (f p) = page_widget p ∧ tabButton (f p) = tabButton p) →
  Forall own_button l → Forall own_button (alter_page f index l).
Proof.
  intros Hf Hb. unfold alter_page. destruct (index <? 0)%Z; [done|].
  apply Forall_alter; [done|]. intros p _.
  unfold own_button. destruct (Hf p) as [-> ->]. done.
Qed.

Lemma own_button_set r (b : bool) (l : list Page) :
  Forall own_button l →
  Forall own_button
    (alter_page
       (with_button (if b then persistent_image_label r else invisible_widget))
       (index_Z r l) l).
Proof.
  intros Hb. unfold alter_page, index_Z.
  destruct (index_of r l) as [i|] eqn:Hi; [|done].
  destruct (Z.ltb_spec (Z.of_nat i) 0); [done|]. rewrite Nat2Z.id.
  apply Forall_alter; [done|]. intros p Hp _.
  destruct (index_of_Some r l i Hi) as (q & Hq & Hr).
  rewrite Hp in Hq. injection Hq as <-.
  unfold own_button, with_button. simpl. rewrite Hr. destruct b; auto.
Qed.

Lemma own_button_close s index :
  wf s → Forall own_button (pages s) →
  Forall own_button (pages (close_tab index s).2).
Proof.
  intros Hwf Hb. destruct (page_at index (pages s)) as [p|] eqn:Hp.
  - destruct (can_close (heap s (page_widget p))) eqn:Hc.
    + rewrite (close_tab_allowed s index p Hp Hc); last first.
      { apply page_at_Some in Hp as [_ Hp].
        rewrite (wf_lookup s _ p Hwf Hp). eauto. }
      pose proof (wf_closed s index p Hwf Hp) as Hwf'.
      assert (Hb' : Forall own_button (pages (closed s index p))).
      { simpl. rewrite (delete_page_lookup _ _ p Hp).
        by apply Forall_delete. }
      destruct (pages (closed s index p)) eqn:Hpc.
      * unfold bind, new_tab_clicked.
        rewrite <- Hpc in Hb'.
        pose proof (own_button_add (closed s index p) None Hwf' Hb') as Hb''.
        destruct (add_tab None (closed s index p)) as [[[]|e] s1]; [|done].
        by rewrite save_persistent_tabs_run.
      * rewrite save_persistent_tabs_run. cbn [snd pages set_effects].
        by rewrite Hpc.
    + rewrite (close_tab_denied s index p Hp Hc).
      by rewrite save_persistent_tabs_run.
  - unfold close_tab, widget. rewrite bind_gets, Hp. done.
Qed.

Lemma own_button_step e s :
  wf s → Forall own_button (pages s) → Forall own_button (pages (step e s)).
Proof.
  intros Hwf Hb.
  destruct e as [ms|sid|index|i title|i icon|i b| |g|g|from to|r ms c m];
    cbn [step].
  - by apply own_button_add.
  - by apply own_button_add.
  - by apply own_button_close.
  - rewrite change_title_run. destruct (tabs s !! i); [|done].
    cbn [snd pages set_pages]. by apply own_button_alter_page.
  - rewrite change_icon_run. destruct (tabs s !! i); [|done].
    cbn [snd pages set_pages]. by apply own_button_alter_page.
  - destruct (tabs s !! i) as [r|] eqn:Hr.
    + rewrite (change_persistent_run s i r b Hr). cbn [snd pages].
      by apply own_button_set.
    + by rewrite change_persistent_unknown.
  - unfold changeEvent. by rewrite save_persistent_tabs_run.
  - done.
  - done.
  - cbn [pages set_pages]. by rewrite move_page_Permutation.
  - done.
Qed.

(** X11. In every state the widget reaches from its construction, every
    page of the strip has an indicator on its header, and it is its own:
    either the invisible widget or the persistent image of the tab shown
    on that very page, never the image of another tab. *)
Theorem headers_show_own_indicator g h (es : list Event) :
  Forall own_button (pages (run es (TabWidget__init__ g h))).
Proof.
  assert (H : ∀ s, reachable s → Forall own_button (pages s)).
  { induction 1 as [g' h'|e s Hs IH]; [by constructor|].
    apply own_button_step; [by apply reachable_wf|done]. }
  apply H, run_reachable. constructor.
Qed.

(** ** The "+" button *)

(** X12. On a strip without tabs and with a width that is not negative,
    [move_new_tab_button] puts the "+" button at the preferred width of the
    tab bar; so a widget just constructed has an empty registry, the
    counter at 0, no page, nothing saved, and its "+" button there. *)
Theorem new_tab_button_on_empty_strip g :
  (0 ≤ width g)%Z →
  (∀ s, pages s = [] →
     move_new_tab_button g s =
       (Ok tt, set_new_tab_button_pos (λ pos, (sizeHint_width g, pos.2)) s)) ∧
  (∀ h, TabWidget__init__ g h =
          mkState ∅ 0%Z [] (sizeHint_width g, 0%Z) h 0 []).
Proof.
  intros Hw.
  assert (H : ∀ s, pages s = [] →
     move_new_tab_button g s =
       (Ok tt, set_new_tab_button_pos (λ pos, (sizeHint_width g, pos.2)) s)).
  { intros s Hs. unfold move_new_tab_button, count.
    rewrite !bind_gets, Hs. simpl. change (sum []) with 0%Z.
    destruct (Z.gtb_spec 0 (width g)); [lia|done]. }
  split; [done|]. intros h. unfold TabWidget__init__. by rewrite H.
Qed.

(** X13. [move_new_tab_button] starts from the readings alone: run twice
    with the same readings it leaves the state that one run leaves,
    whatever the position of the "+" button was. *)
Theorem move_new_tab_button_twice g s :
  (move_new_tab_button g ;;; move_new_tab_button g) s = move_new_tab_button g s.
Proof.
  unfold move_new_tab_button, count. unfold bind at 1.
  rewrite !bind_gets. cbn [modify]. rewrite !bind_gets.
  cbn [pages set_new_tab_button_pos new_tab_button_pos].
  unfold modify, set_new_tab_button_pos. simpl.
  by destruct (_ >? _)%Z.
Qed.

End TabWidget.

(** * Concrete runs *)

Example fresh_widget_constructed :
  TabWidget__init__ example_geometry (λ _, no_tab) = fresh_widget.
Proof. reflexivity. Qed.

Example one_quiet_added :
  add_tab example_labels quiet_tabs None fresh_widget = (Ok tt, one_quiet).
Proof. reflexivity. Qed.

Example one_busy_added :
  add_tab example_labels busy_tabs None fresh_widget = (Ok tt, one_busy).
Proof. reflexivity. Qed.

Lemma wf_one_quiet : wf one_quiet.
Proof.
  change one_quiet with (add_tab example_labels quiet_tabs None fresh_widget).2.
  apply wf_add_tab. change fresh_widget with
    (TabWidget__init__ example_geometry (λ _, no_tab)). apply wf_init.
Qed.

Example close_only_tab :
  let s := (close_tab example_labels quiet_tabs 0 one_quiet).2 in
  pages s = [mkPage 1 "gui_new_tab" None (Some invisible_widget)] ∧
  map_to_list (tabs s) = [(1%Z, 1)] ∧
  effects s = effects one_quiet ++
    [ModeSettingsDelete "even"; TabConstructed 1;
     SettingsSet "persistent_tabs" []; SettingsSave;
     SettingsSet "persistent_tabs" []; SettingsSave].
Proof. vm_compute. done. Qed.

(** A second, loaded tab is persistent and is saved after the first; once
    the first tab is dragged behind it the next save lists it first. *)
Example saved_order_follows_the_strip :
  let s := run example_labels example_resources quiet_tabs example_saved
             [ev_load_tab "loaded"; ev_tab_moved 0 1; ev_changeEvent] one_quiet in
  effects s = effects one_quiet ++
    [TabConstructed 1;
     SettingsSet "persistent_tabs" ["even"; "loaded"]; SettingsSave;
     SettingsSet "persistent_tabs" ["loaded"; "even"]; SettingsSave].
Proof. vm_compute. done. Qed.

(** A vetoed close still saves: after a drag that no save followed, the
    store catches up with the strip. *)
Example vetoed_close_after_drag :
  let s := run example_labels example_resources busy_tabs example_saved
             [ev_load_tab "loaded"; ev_tab_moved 0 1; ev_close_tab 1] one_busy in
  pages s = (run example_labels example_resources busy_tabs example_saved
               [ev_load_tab "loaded"; ev_tab_moved 0 1] one_busy).(pages) ∧
  effects s = effects one_busy ++
    [TabConstructed 1;
     SettingsSet "persistent_tabs" ["busy"; "loaded"]; SettingsSave;
     SettingsSet "persistent_tabs" ["loaded"; "busy"]; SettingsSave].
Proof. vm_compute. done. Qed.

Example busy_is_active : (are_tabs_active one_busy).1 = Ok true.
Proof. reflexivity. Qed.

Example quiet_is_idle : (are_tabs_active one_quiet).1 = Ok false.
Proof. reflexivity. Qed.

(** C2 at a widget whose only tab refuses to close. *)
Lemma close_tab_vetoed_witness :
  ∃ s', close_tab example_labels busy_tabs 0 one_busy = (Ok tt, s') ∧
    tabs s' = tabs one_busy ∧ pages s' = pages one_busy ∧
    effects s' = effects one_busy ++ saved ["busy"].
Proof.
  destruct (close_tab_vetoed example_labels busy_tabs one_busy 0 quiet_page)
    as (s' & H1 & H2 & H3 & _ & _ & _ & _ & H4 & _);
    [reflexivity|reflexivity|].
  exists s'. repeat split; assumption.
Defined.

(** C2 as stated fails.  A widget gets a busy tab, loads a second one, and
    the first is dragged behind the second; no save follows the drag.  The
    tab now at index 1 refuses to close: [close_tab] leaves the strip and the
    registry as they were, but the list it saves is not the list saved
    before the call. *)
Lemma close_tab_vetoed_saves_new_order :
  let s := run example_labels example_resources busy_tabs example_saved
             [ev_add_tab None; ev_load_tab "loaded"; ev_tab_moved 0 1]
             (TabWidget__init__ example_geometry (λ _, no_tab)) in
  let s' := (close_tab example_labels busy_tabs 1 s).2 in
  page_at 1 (pages s) = Some quiet_page ∧
  can_close (heap s (page_widget quiet_page)) = false ∧
  (close_tab example_labels busy_tabs 1 s).1 = Ok tt ∧
  pages s' = pages s ∧ tabs s' = tabs s ∧
  last_saved (effects s) = Some ["busy"; "loaded"] ∧
  last_saved (effects s') = Some ["loaded"; "busy"] ∧
  last_saved (effects s') ≠ last_saved (effects s).
Proof.
  vm_compute. repeat split; try reflexivity. discriminate.
Qed.

(** C3 at a widget whose only tab lets itself be closed. *)
Lemma close_tab_never_empty_witness :
  ∃ s', close_tab example_labels quiet_tabs 0 one_quiet = (Ok tt, s') ∧
    0 < length (pages s') ∧ size (tabs s') = length (pages s') ∧
    tabs s' = {[ 1%Z := 1 ]} ∧
    heap s' 1 = mkTab 1 (mkModeSettings "odd" false) true None.
Proof.
  destruct (close_tab_never_empty example_labels quiet_tabs one_quiet 0 quiet_page)
    as (s' & H1 & H2 & H3 & H4);
    [exact wf_one_quiet|reflexivity|].
  destruct (H4 eq_refl eq_refl) as (b & _ & H5 & H6 & _).
  exists s'. repeat split; assumption.
Defined.

(** C6 at a widget whose only tab is persistent and lets itself be closed. *)
Lemma close_tab_deletes_settings_iff_persistent_witness :
  ∃ s', close_tab example_labels quiet_tabs 0 one_quiet = (Ok tt, s') ∧
    deleted_settings (effects s') = ["even"] ∧
    tabs s' !! 0%Z = None.
Proof.
  destruct (close_tab_deletes_settings_iff_persistent example_labels
              quiet_tabs one_quiet 0 quiet_page)
    as (s' & H1 & H2 & _ & H3 & _);
    [exact wf_one_quiet|reflexivity|reflexivity|].
  exists s'. repeat split; assumption.
Defined.

(** C7 at a widget with one tab, of id 0, and the unknown id 7. *)
Lemma change_unknown_tab_raises_witness :
  change_title 7 "title" one_quiet = (Raise (KeyError 7), one_quiet) ∧
  change_icon example_resources 7 "icon" one_quiet
    = (Raise (KeyError 7), one_quiet).
Proof.
  apply (change_unknown_tab_raises example_resources one_quiet 7).
  reflexivity.
Defined.

(** C7 as stated fails: the id 7 is not in the registry of a widget with one
    tab, and neither [change_title] nor [change_icon] returns normally. *)
Lemma change_unknown_tab_not_noop :
  tabs one_quiet !! 7%Z = None ∧
  change_title 7 "title" one_quiet ≠ (Ok tt, one_quiet) ∧
  change_icon example_resources 7 "icon" one_quiet ≠ (Ok tt, one_quiet).
Proof.
  split; [reflexivity|].
  rewrite change_title_run, change_icon_run.
  replace (tabs one_quiet !! 7%Z) with (@None nat) by reflexivity.
  split; discriminate.
Qed.

(** * Concrete runs of the further properties *)

Example two_quiet_added :
  add_tab example_labels quiet_tabs None one_quiet = (Ok tt, two_quiet).
Proof. reflexivity. Qed.

Lemma wf_two_quiet : wf two_quiet.
Proof.
  change two_quiet with (add_tab example_labels quiet_tabs None one_quiet).2.
  apply wf_add_tab, wf_one_quiet.
Qed.

(** X3 at the widget with one tab, of id 0. *)
Lemma change_title_and_icon_of_registered_tab_witness :
  ∃ s', change_title 0 "Share" one_quiet = (Ok tt, s') ∧
    pages s' = [mkPage 0 "Share" None (Some (persistent_image_label 0))].
Proof.
  destruct (change_title_and_icon_of_registered_tab example_resources
              one_quiet 0 0 "Share" "share.png" wf_one_quiet eq_refl)
    as (i & p & _ & _ & (s' & H1 & _) & _).
  exists s'. split; [exact H1|].
  change (change_title 0 "Share" one_quiet) with
    (Ok (), set_pages (λ _, [mkPage 0 "Share" None
                               (Some (persistent_image_label 0))]) one_quiet)
    in H1.
  by injection H1 as <-.
Defined.

(** X4 at the widget with one tab, of id 0, told that it is not
    persistent. *)
Lemma change_persistent_of_registered_tab_witness :
  ∃ s', change_persistent 0 false one_quiet = (Ok tt, s') ∧
    tabs s' = tabs one_quiet ∧
    effects s' = effects one_quiet ++ saved ["even"].
Proof.
  destruct (change_persistent_of_registered_tab one_quiet 0 0 false
              wf_one_quiet eq_refl)
    as (i & p & s' & _ & _ & H1 & _ & _ & H2 & _ & _ & H3).
  exists s'. repeat split; assumption.
Defined.

(** X5 at the widget with one tab, of id 0, and the unknown id 7. *)
Lemma change_persistent_unknown_tab_raises_witness :
  change_persistent 7 true one_quiet = (Raise (KeyError 7), one_quiet).
Proof.
  apply (change_persistent_unknown_tab_raises one_quiet 7 true). reflexivity.
Defined.

(** X6 at the widget with one tab and the index 1. *)
Lemma close_tab_without_tab_raises_witness :
  close_tab example_labels quiet_tabs 1 one_quiet
    = (Raise (AttributeError "close_tab"), one_quiet).
Proof.
  apply (close_tab_without_tab_raises example_labels quiet_tabs one_quiet 1).
  right. simpl. lia.
Defined.

(** X7 at the widget with one tab: a second blank tab. *)
Lemma add_tab_appends_tab_witness :
  ∃ s', add_tab example_labels quiet_tabs None one_quiet = (Ok tt, s') ∧
    tabs s' = <[1%Z := 1]> (tabs one_quiet) ∧
    current_tab_id s' = 2%Z.
Proof.
  destruct (add_tab_appends_tab example_labels quiet_tabs one_quiet None
              wf_one_quiet)
    as (s' & H1 & _ & H2 & H3 & _).
  exists s'. repeat split; assumption.
Defined.


(** X9 at the widget with two tabs: the first one is closed. *)
Lemma close_tab_of_several_witness :
  ∃ s', close_tab example_labels quiet_tabs 0 two_quiet = (Ok tt, s') ∧
    pages s' = [mkPage 1 "gui_new_tab" None (Some invisible_widget)] ∧
    current_tab_id s' = 2%Z ∧
    last_saved (effects s') = Some [].
Proof.
  destruct (close_tab_of_several example_labels quiet_tabs two_quiet 0
              quiet_page wf_two_quiet eq_refl eq_refl)
    as (s' & H1 & H2 & _ & _ & H3 & _ & H4).
  - simpl. lia.
  - exists s'. repeat split; assumption.
Defined.

(** X10 at the widget with one tab. *)
Lemma close_tab_of_last_tab_saves_twice_witness :
  ∃ s', close_tab example_labels quiet_tabs 0 one_quiet = (Ok tt, s') ∧
    effects s' = effects one_quiet ++
      [ModeSettingsDelete "even"; TabConstructed 1;
       SettingsSet "persistent_tabs" []; SettingsSave;
       SettingsSet "persistent_tabs" []; SettingsSave].
Proof.
  destruct (close_tab_of_last_tab_saves_twice example_labels quiet_tabs
              one_quiet 0 quiet_page wf_one_quiet eq_refl eq_refl eq_refl)
    as (s' & H1 & H2).
  exists s'. split; assumption.
Defined.

(** X12 with a widget 250 wide. *)
Lemma new_tab_button_on_empty_strip_witness :
  TabWidget__init__ example_geometry (λ _, no_tab) = fresh_widget.
Proof.
  destruct (new_tab_button_on_empty_strip example_geometry) as [_ H].
  - simpl. lia.
  - apply H.
Defined.
